(** * The gin middleware pipeline and the token-bucket rate limiter

    Sources embedded here:
    - [examples/3_1_middleware_principle.go]: the middleware of the tutorial
      ([middleware1] .. [visualMiddleware], [abortMiddleware]) and the two
      framework methods whose source the file quotes, [Context.Next] and
      [Context.Abort];
    - [examples/3_3_custom_middleware.go]: [RateLimiter], [NewRateLimiter],
      [Allow].

    The framework side (the cursor, [Next], [Abort]) is embedded as Rocq
    functions over an explicit [Context]; a handler body is a value of the
    small type [Handler], which lists the calls a [gin.HandlerFunc] can make
    on its context. *)

From Stdlib Require Import ZArith List Sorted String Bool Lia DecimalString.
From Stdlib Require Import QArith Qminmax Qround Lqa.
Import ListNotations.

Open Scope Z_scope.

Module Gin.

(** ** Data *)

(** [c.index] is an [int8]: every increment wraps around. *)
Definition int8 (z : Z) : Z := (z + 128) mod 256 - 128.

(** [const abortIndex int8 = math.MaxInt8 >> 1] *)
Definition abortIndex : Z := Z.shiftr 127 1.

(** Values kept under [c.Set] ([interface{}] in the source; the examples
    store integers and strings). *)
Inductive Value : Type :=
| VInt (n : Z)
| VString (s : string).

(** The per-request state.  [index] is the cursor, [Keys] the key/value
    store, [response] the status and body written so far, [output] the lines
    printed with [log.Println] (process-wide in Go, threaded here), and
    [invoked] the positions of the handlers called so far, in call order.
    [invoked] is bookkeeping: no operation reads it. *)
Record Context : Type := mkContext {
  index : Z;
  Keys : string -> option Value;
  response : option (Z * string);
  output : list string;
  invoked : list Z
}.

(** What a handler body can do with its context, in continuation style.
    [Return] is the end of the function body (or a [return]). *)
Inductive Handler : Type :=
| Return
| Println (line : string) (k : Handler)
| CallNext (k : Handler)
| CallAbort (k : Handler)
| JSON (code : Z) (body : string) (k : Handler)
| SetKey (key : string) (v : Value) (k : Handler)
| GetKey (key : string) (k : option Value -> Handler)
| Written (k : bool -> Handler).

Inductive Outcome : Type :=
| Finished       (* the call returned *)
| Panicked       (* index out of range *)
| OutOfFuel.     (* the fuel given to the interpreter ran out *)

Definition Result : Type := (Outcome * Context)%type.

(** ** Context operations *)

Definition setIndex (i : Z) (c : Context) : Context :=
  mkContext i (Keys c) (response c) (output c) (invoked c).

(** [c.index++] *)
Definition incrIndex (c : Context) : Context := setIndex (int8 (index c + 1)) c.

(** [func (c *Context) Abort() { c.index = abortIndex }] *)
Definition Abort (c : Context) : Context := setIndex abortIndex c.

Definition logPrintln (line : string) (c : Context) : Context :=
  mkContext (index c) (Keys c) (response c) (output c ++ [line]) (invoked c).

Definition Set_ (key : string) (v : Value) (c : Context) : Context :=
  mkContext (index c)
            (fun k => if String.eqb k key then Some v else Keys c k)
            (response c) (output c) (invoked c).

Definition Get (key : string) (c : Context) : option Value := Keys c key.

(** [c.Writer.Written()] *)
Definition isWritten (c : Context) : bool :=
  match response c with Some _ => true | None => false end.

(** Modelled from the spec: the response writer behind [c.JSON] and
    [c.String] is gin's and is not part of the sources; the spec gives
    [WriteResponse(status, body)]: "sets the response if and only if it has
    not already been set; subsequent calls after the first are silently
    ignored (write-once semantics)". *)
Definition WriteResponse (status : Z) (body : string) (c : Context) : Context :=
  match response c with
  | Some _ => c
  | None => mkContext (index c) (Keys c) (Some (status, body)) (output c) (invoked c)
  end.

Definition noteCall (c : Context) : Context :=
  mkContext (index c) (Keys c) (response c) (output c) (invoked c ++ [index c]).

(** ** Running handlers *)

(** The body [h] run on [c]; [next] is what [c.Next()] does. *)
Fixpoint run (next : Context -> Result) (h : Handler) (c : Context) : Result :=
  match h with
  | Return => (Finished, c)
  | Println line k => run next k (logPrintln line c)
  | CallNext k =>
      match next c with
      | (Finished, c') => run next k c'
      | r => r
      end
  | CallAbort k => run next k (Abort c)
  | JSON code body k => run next k (WriteResponse code body c)
  | SetKey key v k => run next k (Set_ key v c)
  | GetKey key k => run next (k (Get key c)) c
  | Written k => run next (k (isWritten c)) c
  end.

(** [c.handlers[c.index]]: Go panics when the index is out of range. *)
Definition handlerAt (handlers : list Handler) (i : Z) : option Handler :=
  if i <? 0 then None else nth_error handlers (Z.to_nat i).

(** [c.handlers[c.index](c)] *)
Definition invokeAt (next : Context -> Result) (handlers : list Handler)
                    (c : Context) : Result :=
  match handlerAt handlers (index c) with
  | None => (Panicked, c)
  | Some h => run next h (noteCall c)
  end.

(** The loop of [Next]:
<<
    for c.index < int8(len(c.handlers)) {
        c.handlers[c.index](c)
        c.index++
    }
>>
    The handler called may itself call [c.Next()], which is the same loop one
    level deeper: the fuel bounds the depth and the number of iterations. *)
Fixpoint forLoop (fuel : nat) (handlers : list Handler) (c : Context) : Result :=
  match fuel with
  | O => (OutOfFuel, c)
  | S fuel' =>
      if index c <? int8 (Z.of_nat (List.length handlers)) then
        match invokeAt (fun c' => forLoop fuel' handlers (incrIndex c')) handlers c with
        | (Finished, c') => forLoop fuel' handlers (incrIndex c')
        | r => r
        end
      else (Finished, c)
  end.

(** [func (c *Context) Next() { c.index++; for ... }] *)
Definition Next (fuel : nat) (handlers : list Handler) (c : Context) : Result :=
  forLoop fuel handlers (incrIndex c).

(** Modelled from the spec: the executor is gin's engine and is not part of
    the sources; the spec: "executor initializes Context with cursor = 0 and
    the stage list; starts execution by invoking stage 0, which is
    responsible for calling [ctx.Advance()] to proceed". *)
Definition newContext : Context := mkContext 0 (fun _ => None) None [] [].

Definition Execute (fuel : nat) (handlers : list Handler) : Result :=
  invokeAt (Next fuel handlers) handlers newContext.

(** ** The middleware of the tutorial *)

Definition AbortWithStatusJSON (code : Z) (body : string) (k : Handler) : Handler :=
  CallAbort (JSON code body k).

Definition enterLine (name : string) : string := ("==> [" ++ name ++ "] 进入")%string.
Definition exitLine (name : string) : string := ("<== [" ++ name ++ "] 返回")%string.

(** [visualMiddleware(name)] *)
Definition visualMiddleware (name : string) : Handler :=
  Println (enterLine name) (CallNext (Println (exitLine name) Return)).

(** [middleware1], [middleware2], [middleware3] and the handler of [/order].
    Response bodies are abbreviated throughout. *)
Definition middleware1 : Handler :=
  Println "==> Middleware 1: 进入" (CallNext (Println "<== Middleware 1: 返回" Return)).

Definition middleware2 : Handler :=
  Println "==> Middleware 2: 进入" (CallNext (Println "<== Middleware 2: 返回" Return)).

Definition middleware3 : Handler :=
  Println "==> Middleware 3: 进入" (CallNext (Println "<== Middleware 3: 返回" Return)).

Definition orderHandler : Handler :=
  Println ">>> Handler 执行" (JSON 200 "{message: handler executed}" Return).

(** [abortMiddleware] *)
Definition abortMiddleware : Handler :=
  Println "==> abortMiddleware: 准备 Abort"
    (AbortWithStatusJSON 403 "{error: access denied}"
       (Println "==> abortMiddleware: Abort 之后的代码仍执行"
          (Println "==> abortMiddleware: 函数结束" Return))).

(** A terminal handler: one log line and one response, as the handlers of
    [/order], [/abort] and [/visual]. *)
Definition terminal (line : string) (code : Z) (body : string) : Handler :=
  Println line (JSON code body Return).

Definition visualHandler : Handler := terminal ">>> Handler" 200 "OK".

(** A body that starts with the given [log.Println] calls. *)
Fixpoint printAll (lines : list string) (k : Handler) : Handler :=
  match lines with
  | [] => k
  | line :: lines' => Println line (printAll lines' k)
  end.




(** The handler registered after [abortMiddleware] on [/abort]. *)
Definition abortRouteHandler : Handler :=
  terminal ">>> Handler 执行 (这条不会打印)" 200 "{message: handler}".

(** A sequence of [WriteResponse] calls, in order. *)
Definition writeAll (writes : list (Z * string)) (c : Context) : Context :=
  fold_left (fun c' w => WriteResponse (fst w) (snd w) c') writes c.

(** A stage that calls [c.Next()], then [c.Abort()], then [c.Next()] again. *)
Definition nextAbortNext : Handler := CallNext (CallAbort (CallNext Return)).



(** ** Statement helpers *)

(** The handler positions [start, start+1, ..., start+n-1]. *)
Definition positions (start n : nat) : list Z := map Z.of_nat (seq start n).

(** [c] after a call that left the cursor at [i], printed [lines], called
    the handlers at [calls] and passed the response through [resp]. *)
Definition after (c : Context) (i : Z) (lines : list string) (calls : list Z)
                 (resp : option (Z * string) -> option (Z * string)) : Context :=
  mkContext i (Keys c) (resp (response c)) (output c ++ lines) (invoked c ++ calls).

(** The response after [WriteResponse status body]. *)
Definition written (status : Z) (body : string) (r : option (Z * string)) :
  option (Z * string) :=
  match r with Some _ => r | None => Some (status, body) end.




(** Invariants of a run over a chain of [L] handlers.  The calls so far
    are at increasing positions, all of them positions of the chain. *)
Definition ascending (L : Z) (c : Context) : Prop :=
  StronglySorted Z.lt (invoked c) /\ Forall (fun j => 0 <= j < L) (invoked c).

(** While a call is running: the cursor is at or above every position
    called so far. *)
Definition cursorAhead (L : Z) (c : Context) : Prop :=
  ascending L c /\ -128 <= index c <= 127 /\ Forall (fun j => j <= index c) (invoked c).

(** Before the loop tests its condition: the cursor is above every position
    called so far, unless it has wrapped around. *)
Definition loopReady (L : Z) (c : Context) : Prop :=
  ascending L c /\ -128 <= index c <= 127 /\
  (0 <= index c -> Forall (fun j => j < index c) (invoked c)).

Definition keeps (L : Z) (r : Result) : Prop :=
  ascending L (snd r) /\ (fst r = Finished -> cursorAhead L (snd r)).

(** The loop started on [c] comes to an end, given enough fuel. *)
Definition halts (handlers : list Handler) (c : Context) : Prop :=
  exists fuel o c', o <> OutOfFuel /\ forLoop fuel handlers c = (o, c').

End Gin.

(** * The token bucket of [3_3_custom_middleware.go]

    [float64] token counts and [time.Time] instants are taken as exact
    rationals (seconds); rounding, infinities and NaN are outside this model.
    [time.Now()] is an argument of the operation that reads it, and the
    mutex, which only serialises callers, has no counterpart in this
    sequential model. *)

Module Bucket.

Local Open Scope Q_scope.

(** [type RateLimiter struct] *)
Record RateLimiter : Type := mkRateLimiter {
  rate : Q;         (* tokens per second *)
  maxTokens : Q;    (* capacity *)
  tokens : Q;       (* current tokens *)
  lastUpdate : Q    (* instant of the last update *)
}.

(** [func NewRateLimiter(rate float64, maxTokens float64) *RateLimiter];
    [now] is the value of [time.Now()]. *)
Definition NewRateLimiter (now : Q) (rate maxTokens : Q) : RateLimiter :=
  {| rate := rate; maxTokens := maxTokens; tokens := maxTokens; lastUpdate := now |}.

(** [x > y] *)
Definition Qgtb (x y : Q) : bool := negb (Qle_bool x y).

(** [func (rl *RateLimiter) Allow() bool]; [now] is the value of
    [time.Now()].  Returns the result and the limiter after the call. *)
Definition Allow (now : Q) (rl : RateLimiter) : bool * RateLimiter :=
  let elapsed := now - lastUpdate rl in
  (* rl.tokens += elapsed * rl.rate *)
  let refilled := tokens rl + elapsed * rate rl in
  (* if rl.tokens > rl.maxTokens { rl.tokens = rl.maxTokens } *)
  let clamped := if Qgtb refilled (maxTokens rl) then maxTokens rl else refilled in
  (* rl.lastUpdate = now; if rl.tokens >= 1 { rl.tokens--; return true }; return false *)
  if Qle_bool 1 clamped
  then (true, mkRateLimiter (rate rl) (maxTokens rl) (clamped - 1) now)
  else (false, mkRateLimiter (rate rl) (maxTokens rl) clamped now).

(** The limiter before the first call and after each of the calls made at
    [times]. *)
Fixpoint observations (times : list Q) (rl : RateLimiter) : list RateLimiter :=
  rl :: match times with
        | [] => []
        | t :: times' => observations times' (snd (Allow t rl))
        end.

(** [times] never go back, starting from [from]. *)
Fixpoint nondecreasing (from : Q) (times : list Q) : Prop :=
  match times with
  | [] => True
  | t :: times' => from <= t /\ nondecreasing t times'
  end.

(** The results of [n] calls made back to back at the instant [now]. *)
Fixpoint burst (n : nat) (now : Q) (rl : RateLimiter) : list bool :=
  match n with
  | O => []
  | S n' => fst (Allow now rl) :: burst n' now (snd (Allow now rl))
  end.

(** The token count is within [0, cap]. *)
Definition within (cap : Q) (rl : RateLimiter) : Prop :=
  0 <= tokens rl /\ tokens rl <= cap.

End Bucket.

Import Gin.
Import Bucket.

(** * The rate-limited route of [3_3_custom_middleware.go] *)

(** [RateLimitMiddleware(limiter)], run at the instant [now]: the body the
    call amounts to ([c.AbortWithStatusJSON(429, ...); return] when
    [limiter.Allow()] is false, [c.Next()] otherwise) and the limiter after
    the call. *)
Definition RateLimitMiddleware (now : Q) (limiter : RateLimiter) : Handler * RateLimiter :=
  let r := Allow now limiter in
  (if fst r then CallNext Return
   else AbortWithStatusJSON 429 "{error: rate_limit_exceeded}" Return,
   snd r).

(** One request through Logger, RateLimit, Auth and the handler. *)
Definition limitedRequest (now : Q) (limiter : RateLimiter) : Result * RateLimiter :=
  (Execute 10 [visualMiddleware "Logger"; fst (RateLimitMiddleware now limiter);
               visualMiddleware "Auth"; visualHandler],
   snd (RateLimitMiddleware now limiter)).

(** * The other middleware and handlers of the two files *)

Module Routes.

(** ** Chains with logging stages in front *)

(** A stage that prints a line, calls [c.Next()] and prints a line:
    [middleware1], [middleware2], [middleware3] and [visualMiddleware]. *)
Definition loggingStage (enter exit : string) : Handler :=
  Println enter (CallNext (Println exit Return)).

Definition wrapped (stages : list (string * string)) : list Handler :=
  map (fun s => loggingStage (fst s) (snd s)) stages.

(** [r.Use(middleware1()); r.Use(middleware2()); r.Use(middleware3())]: the
    three stages in front of every route of [3_1_middleware_principle.go]. *)
Definition globalStages : list (string * string) :=
  [("==> Middleware 1: 进入", "<== Middleware 1: 返回");
   ("==> Middleware 2: 进入", "<== Middleware 2: 返回");
   ("==> Middleware 3: 进入", "<== Middleware 3: 返回")]%string.

(** The handlers [pre], then logging stages, then the handlers [tail]. *)
Definition placed (tail pre : list Handler) (stages : list (string * string)) :
  list Handler :=
  pre ++ wrapped stages ++ tail.

(** [c] after a call that left the cursor at [i], printed [lines], called
    the handlers at [calls], passed the response through [resp] and the
    key/value store through [keys]. *)
Definition afterWith (c : Context) (i : Z) (lines : list string) (calls : list Z)
                     (resp : option (Z * string) -> option (Z * string))
                     (keys : (string -> option Value) -> string -> option Value) :
  Context :=
  mkContext i (keys (Keys c)) (resp (response c)) (output c ++ lines) (invoked c ++ calls).

(** ** The stages and handlers of [3_1_middleware_principle.go]

    A stage that reads the request takes what it reads as an argument: the
    [Authorization] header for [authMiddleware].  JSON bodies are written as
    [{key: value, ...}]. *)

Definition showInt (n : Z) : string := NilZero.string_of_int (Z.to_int n).

(** A stored value as it appears in a JSON body; a missing one is [null]. *)
Definition showValue (v : option Value) : string :=
  match v with
  | None => "null"
  | Some (VInt n) => showInt n
  | Some (VString s) => s
  end.

Definition valueEqb (v w : Value) : bool :=
  match v, w with
  | VInt n, VInt m => Z.eqb n m
  | VString s, VString t => String.eqb s t
  | _, _ => false
  end.

(** [setDataMiddleware]; [now] is the value of [time.Now()]. *)
Definition setDataMiddleware (now : Value) : Handler :=
  SetKey "user_id" (VInt 12345)
    (SetKey "username" (VString "张三")
       (SetKey "request_time" now (CallNext Return))).

Definition dataBody (userID username requestTime : option Value) : string :=
  ("{user_id: " ++ showValue userID ++ ", username: " ++ showValue username
   ++ ", request_time: " ++ showValue requestTime ++ "}")%string.

(** The handler of [/data]. *)
Definition dataHandler : Handler :=
  GetKey "user_id" (fun userID =>
    match userID with
    | None => JSON 500 "{error: user_id not found}" Return
    | Some _ =>
        GetKey "username" (fun username =>
          GetKey "request_time" (fun requestTime =>
            JSON 200 (dataBody userID username requestTime) Return))
    end).

(** [authMiddleware]; [token] is [c.GetHeader("Authorization")]. *)
Definition authMiddleware (token : string) : Handler :=
  if String.eqb token "" then
    AbortWithStatusJSON 401
      "{error: unauthorized, message: Authorization header is required}" Return
  else if (String.length token <? 10)%nat then
    AbortWithStatusJSON 401
      "{error: invalid_token, message: Invalid token format}" Return
  else
    SetKey "user_id" (VInt 1001)
      (SetKey "username" (VString "authenticated_user") (CallNext Return)).

(** [adminMiddleware] *)
Definition adminMiddleware : Handler :=
  GetKey "user_id" (fun userID =>
    match userID with
    | None => AbortWithStatusJSON 401 "{error: user not authenticated}" Return
    | Some v =>
        if negb (valueEqb v (VInt 1001)) then
          AbortWithStatusJSON 403 "{error: admin access required}" Return
        else CallNext Return
    end).

(** The handlers of [/api/profile] and [/admin/dashboard]. *)
Definition profileHandler : Handler :=
  GetKey "user_id" (fun userID =>
    JSON 200 ("{message: protected resource, user_id: " ++ showValue userID ++ "}")
         Return).

Definition adminHandler : Handler := JSON 200 "{message: admin dashboard}" Return.

(** The key/value store after [authMiddleware] has recorded its user. *)
Definition authKeys (keys : string -> option Value) : string -> option Value :=
  fun k => if String.eqb k "username" then Some (VString "authenticated_user")
           else if String.eqb k "user_id" then Some (VInt 1001) else keys k.

(** The key/value store after [setDataMiddleware]. *)
Definition dataKeys (now : Value) (keys : string -> option Value) :
  string -> option Value :=
  fun k => if String.eqb k "request_time" then Some now
           else if String.eqb k "username" then Some (VString "张三")
           else if String.eqb k "user_id" then Some (VInt 12345) else keys k.

(** ** Sequences of [Allow] calls *)


(** The limiter after the calls made at [times]. *)
Fixpoint afterCalls (times : list Q) (rl : RateLimiter) : RateLimiter :=
  match times with
  | [] => rl
  | t :: times' => afterCalls times' (snd (Allow t rl))
  end.


(** ** The rate-limited route of [3_3_custom_middleware.go] *)

(** The handler of [/limited/test]. *)
Definition limitedHandler : Handler := JSON 200 "{message: rate limit test}" Return.




(** ** Tokens and request ids of [3_3_custom_middleware.go] *)

Import Ascii.

Definition hextable : string := "0123456789abcdef".

Definition hexDigit (n : N) : ascii :=
  match String.get (N.to_nat n) hextable with
  | Some a => a
  | None => "0"%char
  end.

(** [hex.EncodeToString]: for each byte [v], [hextable[v>>4]] then
    [hextable[v&0x0f]]. *)
Fixpoint EncodeToString (src : list Byte.byte) : string :=
  match src with
  | [] => EmptyString
  | v :: src' =>
      String (hexDigit (N.shiftr (Byte.to_N v) 4))
             (String (hexDigit (N.land (Byte.to_N v) 15)) (EncodeToString src'))
  end.

(** [b := make([]byte, n); rand.Read(b)]: [n] zero bytes, overwritten from
    the front with what the random source [random] delivers. *)
Definition randRead (n : nat) (random : list Byte.byte) : list Byte.byte :=
  firstn n (random ++ repeat Byte.x00 n).

(** [generateToken] and [generateRequestID]; [random] is the random source. *)
Definition generateToken (random : list Byte.byte) : string :=
  EncodeToString (randRead 32 random).

Definition generateRequestID (random : list Byte.byte) : string :=
  EncodeToString (randRead 16 random).

(** [c.Header(key, value)] on the response headers written so far: an empty
    value deletes the header, any other replaces it. *)
Definition Header (key value : string) (headers : list (string * string)) :
  list (string * string) :=
  let others := filter (fun kv => negb (String.eqb (fst kv) key)) headers in
  if String.eqb value "" then others else others ++ [(key, value)].

(** [RequestIDMiddleware]; [incoming] is [c.GetHeader("X-Request-ID")].  The
    stage as a handler, and what it does to the response headers (before it
    calls [c.Next()]). *)
Definition RequestIDMiddleware (incoming : string) (random : list Byte.byte) :
  Handler * (list (string * string) -> list (string * string)) :=
  let requestID :=
    if String.eqb incoming "" then generateRequestID random else incoming in
  (SetKey "request_id" (VString requestID) (CallNext Return),
   Header "X-Request-ID" requestID).

(** ** Bearer authentication of [3_3_custom_middleware.go] *)

(** The text before and the text after the first space of [s], if it has one. *)
Fixpoint cutAtSpace (s : string) : option (string * string) :=
  match s with
  | EmptyString => None
  | String a s' =>
      if Ascii.eqb a " " then Some (EmptyString, s')
      else match cutAtSpace s' with
           | Some (l, r) => Some (String a l, r)
           | None => None
           end
  end.

(** [strings.SplitN(s, " ", 2)] *)
Definition SplitN (s : string) : list string :=
  match cutAtSpace s with
  | Some (l, r) => [l; r]
  | None => [s]
  end.

(** [JWTAuthMiddleware]; [authHeader] is [c.GetHeader("Authorization")]. *)
Definition JWTAuthMiddleware (authHeader : string) : Handler :=
  if String.eqb authHeader "" then
    AbortWithStatusJSON 401
      "{error: missing_token, message: Authorization header is required}" Return
  else
    let parts := SplitN authHeader in
    if negb (List.length parts =? 2)%nat
       || negb (String.eqb (nth 0 parts EmptyString) "Bearer") then
      AbortWithStatusJSON 401
        "{error: invalid_token_format, message: Authorization header must be: Bearer <token>}"
        Return
    else
      let token := nth 1 parts EmptyString in
      if (String.length token <? 20)%nat then
        AbortWithStatusJSON 401
          "{error: invalid_token, message: Token is invalid or expired}" Return
      else
        SetKey "user_id" (VInt 1001)
          (SetKey "username" (VString "test_user") (CallNext Return)).

(** [c.GetInt] and [c.GetString] on the value found under a key. *)
Definition GetInt (v : option Value) : Z :=
  match v with Some (VInt n) => n | _ => 0 end.

Definition GetString (v : option Value) : string :=
  match v with Some (VString s) => s | _ => EmptyString end.

(** The body written by the handler of [/api/profile]. *)
Definition profileBody (userID username requestID : option Value) : string :=
  ("{request_id: " ++ GetString requestID
   ++ ", user_id: " ++ showInt (GetInt userID)
   ++ ", username: " ++ GetString username ++ "}")%string.

(** The handler of [/api/profile]. *)
Definition apiProfileHandler : Handler :=
  GetKey "user_id" (fun userID =>
    GetKey "username" (fun username =>
      GetKey "request_id" (fun requestID =>
        JSON 200 (profileBody userID username requestID) Return))).

(** The key/value store after [JWTAuthMiddleware] has recorded its user. *)
Definition jwtKeys (keys : string -> option Value) : string -> option Value :=
  fun k => if String.eqb k "username" then Some (VString "test_user")
           else if String.eqb k "user_id" then Some (VInt 1001) else keys k.

(** The key/value store after [RequestIDMiddleware]. *)
Definition requestKeys (requestID : string) (keys : string -> option Value) :
  string -> option Value :=
  fun k => if String.eqb k "request_id" then Some (VString requestID) else keys k.

(** A header of the form [Bearer <token>] with a token of at least 20 bytes. *)
Definition bearer (authHeader : string) : Prop :=
  exists token, authHeader = ("Bearer " ++ token)%string
                /\ (20 <= String.length token)%nat.

(** ** Cross-origin requests of [3_3_custom_middleware.go] *)

Definition allowedOrigins : list string :=
  ["http://localhost:3000"; "http://localhost:8080"; "https://example.com"]%string.

(** The loop over [allowedOrigins]. *)
Definition originAllowed (origin : string) : bool :=
  existsb (fun o => String.eqb o origin || String.eqb o "*") allowedOrigins.

(** [c.AbortWithStatus(code)]: the status is written, with an empty body,
    and the chain is aborted. *)
Definition AbortWithStatus (code : Z) (k : Handler) : Handler :=
  JSON code EmptyString (CallAbort k).

(** [CORSMiddleware]; [origin] is [c.GetHeader("Origin")] and [method] is
    [c.Request.Method].  The stage as a handler, and what it does to the
    response headers. *)
Definition CORSMiddleware (origin method : string) :
  Handler * (list (string * string) -> list (string * string)) :=
  (if String.eqb method "OPTIONS" then AbortWithStatus 204 Return
   else CallNext Return,
   fun headers =>
     if originAllowed origin then
       Header "Access-Control-Expose-Headers" "X-Request-ID, X-Response-Time"
         (Header "Access-Control-Max-Age" "86400"
            (Header "Access-Control-Allow-Credentials" "true"
               (Header "Access-Control-Allow-Headers"
                       "Origin, Content-Type, Accept, Authorization, X-Request-ID"
                  (Header "Access-Control-Allow-Methods"
                          "GET, POST, PUT, PATCH, DELETE, OPTIONS"
                     (Header "Access-Control-Allow-Origin" origin headers)))))
     else headers).

End Routes.

Import Routes.

(** * The pipeline: proofs *)

(** The two outputs the tutorial lists under its test output examples. *)
Example order_route :
  output (snd (Execute 5 [middleware1; middleware2; middleware3; orderHandler]))
  = ["==> Middleware 1: 进入"; "==> Middleware 2: 进入"; "==> Middleware 3: 进入";
     ">>> Handler 执行";
     "<== Middleware 3: 返回"; "<== Middleware 2: 返回"; "<== Middleware 1: 返回"]%string.
Proof. reflexivity. Qed.

Example visual_route :
  let r := Execute 10 [visualMiddleware "A"; visualMiddleware "B"; visualMiddleware "C"; visualHandler] in
  fst r = Finished /\
  output (snd r) = [enterLine "A"; enterLine "B"; enterLine "C"; ">>> Handler"%string;
                    exitLine "C"; exitLine "B"; exitLine "A"] /\
  invoked (snd r) = [0; 1; 2; 3] /\ index (snd r) = 6.
Proof. vm_compute. repeat split. Qed.


(** ** Basic facts *)

Lemma int8_id z : -128 <= z <= 127 -> int8 z = z.
Proof.
  intros H. unfold int8.
  rewrite Z.mod_small by lia. lia.
Qed.

Lemma int8_range z : -128 <= int8 z <= 127.
Proof.
  unfold int8.
  pose proof (Z.mod_pos_bound (z + 128) 256 ltac:(lia)). lia.
Qed.

Lemma abortIndex_63 : abortIndex = 63.
Proof. reflexivity. Qed.

Lemma handlerAt_middle pre h rest :
  handlerAt (pre ++ h :: rest) (Z.of_nat (List.length pre)) = Some h.
Proof.
  unfold handlerAt.
  destruct (Z.ltb_spec (Z.of_nat (List.length pre)) 0) as [Hneg|_]; [lia|].
  rewrite Nat2Z.id, nth_error_app2 by lia.
  now rewrite Nat.sub_diag.
Qed.

Lemma forLoop_exit fuel handlers c :
  int8 (Z.of_nat (List.length handlers)) <= index c ->
  forLoop (S fuel) handlers c = (Finished, c).
Proof.
  intros H. simpl.
  destruct (Z.ltb_spec (index c) (int8 (Z.of_nat (List.length handlers)))); [lia|reflexivity].
Qed.

Lemma forLoop_step fuel handlers c :
  index c < int8 (Z.of_nat (List.length handlers)) ->
  forLoop (S fuel) handlers c =
  match invokeAt (Next fuel handlers) handlers c with
  | (Finished, c') => forLoop fuel handlers (incrIndex c')
  | r => r
  end.
Proof.
  intros H. simpl.
  destruct (Z.ltb_spec (index c) (int8 (Z.of_nat (List.length handlers)))); [reflexivity|lia].
Qed.

Lemma written_WriteResponse status body c :
  WriteResponse status body c =
  mkContext (index c) (Keys c) (written status body (response c)) (output c) (invoked c).
Proof. unfold WriteResponse, written. destruct c as [i k [r|] o v]; reflexivity. Qed.

(** [c.Next()] when the cursor is already at the last handler or beyond:
    the cursor moves on and nothing is called. *)
Lemma Next_past_end fuel handlers c :
  Z.of_nat (List.length handlers) <= 127 ->
  Z.of_nat (List.length handlers) - 1 <= index c < 127 ->
  Next (S fuel) handlers c = (Finished, setIndex (index c + 1) c).
Proof.
  intros HL Hi. unfold Next.
  rewrite forLoop_exit.
  - unfold incrIndex. now rewrite int8_id by lia.
  - unfold incrIndex; simpl. rewrite !int8_id by lia. lia.
Qed.

(** ** The onion: logging stages wrapped around a core *)

Section Onion.

Variables (core : Handler) (rest : list Handler).
(* What calling the core leaves behind: cursor, lines, calls, response. *)
Variables (J0 : Z) (O0 : list string) (I0 : list Z).
Variable R0 : option (Z * string) -> option (Z * string).
Variable F0 : nat.




End Onion.

(** ** More fuel does not change a finished or panicked call *)

Lemma run_more_fuel (next1 next2 : Context -> Result) :
  (forall c o c', next1 c = (o, c') -> o <> OutOfFuel -> next2 c = (o, c')) ->
  forall h c o c', run next1 h c = (o, c') -> o <> OutOfFuel -> run next2 h c = (o, c').
Proof.
  intros Hnext. induction h as [|line k IH|k IH|k IH|code body k IH|key v k IH|key k IH|k IH];
    intros c o c' Hrun Ho; cbn [run] in *; eauto.
  destruct (next1 c) as [o1 c1] eqn:E1.
  destruct o1.
  - rewrite (Hnext _ _ _ E1) by discriminate. eauto.
  - inversion Hrun; subst. now rewrite (Hnext _ _ _ E1) by discriminate.
  - inversion Hrun; subst. congruence.
Qed.

Lemma forLoop_eq fuel handlers c :
  forLoop (S fuel) handlers c =
  if index c <? int8 (Z.of_nat (List.length handlers)) then
    match invokeAt (Next fuel handlers) handlers c with
    | (Finished, c') => forLoop fuel handlers (incrIndex c')
    | r => r
    end
  else (Finished, c).
Proof. reflexivity. Qed.

Lemma forLoop_S fuel handlers : forall c o c',
  forLoop fuel handlers c = (o, c') -> o <> OutOfFuel ->
  forLoop (S fuel) handlers c = (o, c').
Proof.
  induction fuel as [|f IH]; intros c o c' H Ho.
  - simpl in H. inversion H; subst. congruence.
  - rewrite forLoop_eq in H. rewrite forLoop_eq.
    destruct (index c <? int8 (Z.of_nat (List.length handlers))); [|exact H].
    unfold invokeAt in *.
    destruct (handlerAt handlers (index c)) as [h|]; [|exact H].
    destruct (run (Next f handlers) h (noteCall c)) as [o1 c1] eqn:E1.
    assert (Hmono : forall c0 o0 c0',
               Next f handlers c0 = (o0, c0') -> o0 <> OutOfFuel ->
               Next (S f) handlers c0 = (o0, c0'))
      by (unfold Next; intros; now apply IH).
    destruct o1.
    + rewrite (run_more_fuel _ _ Hmono _ _ _ _ E1) by discriminate. now apply IH.
    + inversion H; subst. now rewrite (run_more_fuel _ _ Hmono _ _ _ _ E1) by discriminate.
    + inversion H; subst. congruence.
Qed.

Lemma forLoop_more_fuel fuel fuel' handlers c o c' :
  (fuel <= fuel')%nat ->
  forLoop fuel handlers c = (o, c') -> o <> OutOfFuel ->
  forLoop fuel' handlers c = (o, c').
Proof.
  induction 1 as [|m Hle IH]; intros H Ho; [assumption|].
  apply forLoop_S; auto.
Qed.

Lemma Execute_more_fuel fuel fuel' handlers o c' :
  (fuel <= fuel')%nat ->
  Execute fuel handlers = (o, c') -> o <> OutOfFuel ->
  Execute fuel' handlers = (o, c').
Proof.
  intros Hle H Ho. unfold Execute, invokeAt in *.
  destruct (handlerAt handlers (index newContext)); [|assumption].
  eapply run_more_fuel; [|exact H|exact Ho].
  intros c o0 c0'. unfold Next. now apply forLoop_more_fuel.
Qed.


(** ** The ordering of a chain of logging stages *)







(** ** Abort *)






(** ** No handler is called twice *)

Section AtMostOnce.

Variable handlers : list Handler.
Hypothesis short : (List.length handlers <= 64)%nat.

Local Abbreviation L := (Z.of_nat (List.length handlers)).

Lemma int8_L : int8 L = L.
Proof. apply int8_id. lia. Qed.

Lemma sorted_snoc (l : list Z) (i : Z) :
  StronglySorted Z.lt l -> Forall (fun j => j < i) l -> StronglySorted Z.lt (l ++ [i]).
Proof.
  induction 1 as [|a l Hs IH Ha]; intros Hi; simpl.
  - constructor; constructor.
  - inversion Hi; subst. constructor; [now apply IH|].
    apply Forall_app. split; [assumption|]. constructor; [assumption|constructor].
Qed.

Lemma loopReady_incr c : cursorAhead L c -> loopReady L (incrIndex c).
Proof.
  intros [Hasc [Hr Hle]]. unfold loopReady, incrIndex. simpl.
  split; [exact Hasc|]. split; [apply int8_range|].
  intros Hpos.
  destruct (Z.eq_dec (index c) 127) as [E|E].
  - rewrite E in Hpos. vm_compute in Hpos. now exfalso; apply Hpos.
  - rewrite int8_id by lia.
    eapply Forall_impl; [|exact Hle]. simpl. intros; lia.
Qed.

Lemma cursorAhead_Abort c : cursorAhead L c -> cursorAhead L (Abort c).
Proof.
  intros [[Hs Hb] [Hr Hle]].
  unfold cursorAhead, ascending, Abort. simpl. rewrite abortIndex_63.
  split; [split; assumption|]. split; [lia|].
  eapply Forall_impl; [|exact Hb]. simpl. intros; lia.
Qed.

Lemma run_keeps (next : Context -> Result) :
  (forall c, cursorAhead L c -> keeps L (next c)) ->
  forall h c, cursorAhead L c -> keeps L (run next h c).
Proof.
  intros Hnext.
  induction h as [|line k IH|k IH|k IH|code body k IH|key v k IH|key k IH|k IH];
    intros c Hc; cbn [run].
  - split; [exact (proj1 Hc)|intros _; exact Hc].
  - apply IH. exact Hc.
  - pose proof (Hnext c Hc) as Hn.
    destruct (next c) as [o c1]. destruct o; try exact Hn.
    apply IH. now apply Hn.
  - apply IH. now apply cursorAhead_Abort.
  - apply IH. rewrite written_WriteResponse. exact Hc.
  - apply IH. exact Hc.
  - apply IH. exact Hc.
  - apply IH. exact Hc.
Qed.

Lemma noteCall_cursorAhead c h :
  loopReady L c -> handlerAt handlers (index c) = Some h -> cursorAhead L (noteCall c).
Proof.
  intros [[Hs Hb] [Hr Hlt]] Hat.
  unfold handlerAt in Hat.
  destruct (Z.ltb_spec (index c) 0) as [|Hpos]; [discriminate|].
  assert (Hin : index c < L).
  { pose proof (nth_error_Some handlers (Z.to_nat (index c))) as [Hn _].
    rewrite Hat in Hn. specialize (Hn ltac:(discriminate)). lia. }
  specialize (Hlt Hpos).
  unfold cursorAhead, ascending, noteCall. simpl.
  split; [split|split; [lia|]].
  - now apply sorted_snoc.
  - apply Forall_app. split; [assumption|]. constructor; [lia|constructor].
  - apply Forall_app. split.
    + eapply Forall_impl; [|exact Hlt]. simpl. intros; lia.
    + constructor; [lia|constructor].
Qed.

Lemma forLoop_keeps : forall fuel c, loopReady L c -> keeps L (forLoop fuel handlers c).
Proof.
  induction fuel as [|f IH]; intros c Hc.
  - split; [exact (proj1 Hc)|simpl; discriminate].
  - rewrite forLoop_eq. rewrite int8_L.
    destruct (Z.ltb_spec (index c) L) as [Hlt|Hge].
    + unfold invokeAt.
      destruct (handlerAt handlers (index c)) as [h|] eqn:Hat;
        [|split; [exact (proj1 Hc)|simpl; discriminate]].
      assert (Hrun : keeps L (run (Next f handlers) h (noteCall c))).
      { apply run_keeps; [|now apply noteCall_cursorAhead with h].
        intros c0 Hc0. unfold Next. apply IH. now apply loopReady_incr. }
      destruct (run (Next f handlers) h (noteCall c)) as [o c1].
      destruct o; try exact Hrun.
      apply IH. apply loopReady_incr. now apply Hrun.
    + destruct Hc as [[Hs Hb] [Hr Hlt]].
      split; [split; assumption|]. intros _. simpl.
      split; [split; assumption|]. split; [lia|].
      eapply Forall_impl; [|exact Hb]. simpl. intros; lia.
Qed.


(** *** The calls only add to [invoked] *)

Lemma run_grows (next : Context -> Result) :
  (forall c j, In j (invoked c) -> In j (invoked (snd (next c)))) ->
  forall h c j, In j (invoked c) -> In j (invoked (snd (run next h c))).
Proof.
  intros Hnext.
  induction h as [|line k IH|k IH|k IH|code body k IH|key v k IH|key k IH|k IH];
    intros c j Hj; cbn [run]; try (now apply IH).
  - exact Hj.
  - pose proof (Hnext c j Hj) as Hn.
    destruct (next c) as [o c1]. destruct o; try exact Hn. now apply IH.
  - apply IH. now rewrite written_WriteResponse.
Qed.

Lemma forLoop_grows : forall fuel c j,
  In j (invoked c) -> In j (invoked (snd (forLoop fuel handlers c))).
Proof.
  induction fuel as [|f IH]; intros c j Hj; [exact Hj|].
  rewrite forLoop_eq.
  destruct (index c <? int8 L); [|exact Hj].
  unfold invokeAt. destruct (handlerAt handlers (index c)) as [h|]; [|exact Hj].
  assert (Hrun : In j (invoked (snd (run (Next f handlers) h (noteCall c))))).
  { apply run_grows.
    - intros c0 j0 Hj0. unfold Next. now apply IH.
    - unfold noteCall; simpl. apply in_or_app. now left. }
  destruct (run (Next f handlers) h (noteCall c)) as [o c1].
  destruct o; try exact Hrun. now apply IH.
Qed.

(** *** Every run comes to an end *)

Lemma cursor_at_least i c : cursorAhead L c -> In i (invoked c) -> i <= index c.
Proof.
  intros [_ [_ Hle]] Hin. rewrite Forall_forall in Hle. now apply Hle.
Qed.

Lemma incr_beyond i c :
  cursorAhead L c -> In i (invoked c) ->
  i < index (incrIndex c) \/ index (incrIndex c) < 0.
Proof.
  intros Hc Hin. pose proof (cursor_at_least i c Hc Hin) as Hle.
  destruct Hc as [_ [Hr _]]. unfold incrIndex; simpl.
  destruct (Z.eq_dec (index c) 127) as [E|E].
  - right. rewrite E. vm_compute. reflexivity.
  - left. rewrite int8_id by lia. lia.
Qed.

Lemma run_halts (i : Z) :
  (forall c, loopReady L c -> i < index c \/ index c < 0 -> halts handlers c) ->
  forall h c, cursorAhead L c -> In i (invoked c) ->
    exists fuel o c', o <> OutOfFuel /\ run (Next fuel handlers) h c = (o, c').
Proof.
  intros Hbeyond.
  induction h as [|line k IH|k IH|k IH|code body k IH|key v k IH|key k IH|k IH];
    intros c Hc Hin; cbn [run]; try (now apply IH).
  - exists 0%nat, Finished, c. split; [discriminate|reflexivity].
  - destruct (Hbeyond (incrIndex c) (loopReady_incr c Hc) (incr_beyond i c Hc Hin))
      as [f1 [o1 [c1 [Ho1 E1]]]].
    destruct o1; [|exists f1, Panicked, c1; unfold Next; rewrite E1;
                    split; [discriminate|reflexivity]|congruence].
    pose proof (forLoop_keeps f1 (incrIndex c) (loopReady_incr c Hc)) as Hk.
    pose proof (forLoop_grows f1 (incrIndex c) i Hin) as Hg.
    rewrite E1 in Hk, Hg. simpl in Hg.
    destruct (IH c1 (proj2 Hk eq_refl) Hg) as [f2 [o2 [c2 [Ho2 E2]]]].
    exists (Nat.max f1 f2), o2, c2. split; [assumption|].
    unfold Next at 1.
    rewrite (forLoop_more_fuel f1 (Nat.max f1 f2) _ _ _ _ (Nat.le_max_l _ _) E1)
      by discriminate.
    apply (run_more_fuel (Next f2 handlers)); try assumption.
    intros c0 o0 c0'. unfold Next. apply forLoop_more_fuel. apply Nat.le_max_r.
  - apply IH; [|exact Hin]. now apply cursorAhead_Abort.
  - apply IH; rewrite written_WriteResponse; assumption.
Qed.

Lemma handlerAt_in_range c :
  0 <= index c < L -> exists h, handlerAt handlers (index c) = Some h.
Proof.
  intros Hi. unfold handlerAt.
  destruct (Z.ltb_spec (index c) 0); [lia|].
  destruct (nth_error handlers (Z.to_nat (index c))) as [h|] eqn:E; [now exists h|].
  apply nth_error_None in E. lia.
Qed.

Lemma forLoop_halts : forall (d : nat) c,
  loopReady L c -> L - index c <= Z.of_nat d \/ index c < 0 -> halts handlers c.
Proof.
  induction d as [|d IH]; intros c Hc Hpos.
  - destruct Hpos as [Hge|Hneg].
    + exists 1%nat, Finished, c. split; [discriminate|].
      apply forLoop_exit. rewrite int8_L. lia.
    + exists 1%nat, Panicked, c. split; [discriminate|].
      rewrite forLoop_step by (rewrite int8_L; lia).
      unfold invokeAt, handlerAt.
      destruct (Z.ltb_spec (index c) 0); [reflexivity|lia].
  - destruct (Z_lt_le_dec (index c) 0) as [Hneg|Hnn]; [apply IH; auto|].
    destruct (Z_le_gt_dec (L - index c) (Z.of_nat d)) as [Hle|Hgt]; [apply IH; auto|].
    destruct (handlerAt_in_range c ltac:(lia)) as [h Hat].
    assert (Hbeyond : forall c0, loopReady L c0 ->
                        index c < index c0 \/ index c0 < 0 -> halts handlers c0)
      by (intros c0 H0 [Hlt|Hlt]; apply IH; auto; left; lia).
    assert (Hnote : cursorAhead L (noteCall c)) by (now apply noteCall_cursorAhead with h).
    assert (Hin : In (index c) (invoked (noteCall c)))
      by (unfold noteCall; simpl; apply in_or_app; right; now left).
    destruct (run_halts (index c) Hbeyond h (noteCall c) Hnote Hin)
      as [f1 [o1 [c1 [Ho1 E1]]]].
    destruct o1; [| |congruence].
    + assert (Hk : keeps L (run (Next f1 handlers) h (noteCall c))).
      { apply run_keeps; [|exact Hnote].
        intros c0 H0. unfold Next. apply forLoop_keeps. now apply loopReady_incr. }
      assert (Hg : In (index c) (invoked (snd (run (Next f1 handlers) h (noteCall c))))).
      { apply run_grows; [|exact Hin].
        intros c0 j0 Hj0. unfold Next. now apply forLoop_grows. }
      rewrite E1 in Hk, Hg. simpl in Hg.
      pose proof (proj2 Hk eq_refl) as Hc1.
      destruct (Hbeyond (incrIndex c1) (loopReady_incr c1 Hc1)
                        (incr_beyond (index c) c1 Hc1 Hg))
        as [f2 [o2 [c2 [Ho2 E2]]]].
      exists (S (Nat.max f1 f2)), o2, c2. split; [assumption|].
      rewrite forLoop_step by (rewrite int8_L; lia).
      unfold invokeAt. rewrite Hat.
      rewrite (run_more_fuel (Next f1 handlers) (Next (Nat.max f1 f2) handlers)) with
        (o := Finished) (c' := c1); try assumption; try discriminate.
      * apply (forLoop_more_fuel f2); [apply Nat.le_max_r|assumption|assumption].
      * intros c0 o0 c0'. unfold Next. apply forLoop_more_fuel. apply Nat.le_max_l.
    + exists (S f1), Panicked, c1. split; [discriminate|].
      rewrite forLoop_step by (rewrite int8_L; lia).
      unfold invokeAt. now rewrite Hat, E1.
Qed.

Lemma Execute_halts :
  exists fuel o c', o <> OutOfFuel /\ Execute fuel handlers = (o, c').
Proof.
  unfold Execute, invokeAt.
  destruct (handlerAt handlers (index newContext)) as [h|] eqn:Hat.
  - apply (run_halts 0).
    + intros c Hc Hpos. apply (forLoop_halts (List.length handlers)); [assumption|].
      destruct Hpos; [left; lia|now right].
    + apply noteCall_cursorAhead with h; [|exact Hat].
      unfold loopReady, ascending, newContext. simpl.
      split; [split; constructor|]. split; [lia|]. intros _. constructor.
    + simpl. now left.
  - exists 0%nat, Panicked, newContext. split; [discriminate|reflexivity].
Qed.

End AtMostOnce.

(** Every execution of a pipeline of at most 64 handlers comes to an end,
    whatever the stages do: with enough fuel it returns or panics, and more
    fuel does not change the result. *)
Theorem every_run_ends (handlers : list Handler) :
  (List.length handlers <= 64)%nat ->
  exists fuel,
    fst (Execute fuel handlers) <> OutOfFuel /\
    forall fuel', (fuel <= fuel')%nat -> Execute fuel' handlers = Execute fuel handlers.
Proof.
  intros short.
  destruct (Execute_halts handlers short) as [fuel [o [c' [Ho E]]]].
  exists fuel. split; [now rewrite E|].
  intros fuel' Hle. rewrite E. now apply Execute_more_fuel with fuel.
Qed.

Lemma every_run_ends_witness :
  (List.length [visualMiddleware "A"; nextAbortNext; visualHandler] <= 64)%nat /\
  exists fuel,
    fst (Execute fuel [visualMiddleware "A"; nextAbortNext; visualHandler]) <> OutOfFuel /\
    forall fuel', (fuel <= fuel')%nat ->
      Execute fuel' [visualMiddleware "A"; nextAbortNext; visualHandler]
      = Execute fuel [visualMiddleware "A"; nextAbortNext; visualHandler].
Proof.
  split; [simpl; lia|].
  apply (every_run_ends [visualMiddleware "A"; nextAbortNext; visualHandler]).
  simpl; lia.
Defined.





(** ** The code after [Abort] *)

Lemma run_printAll next lines k c :
  run next (printAll lines k) c
  = run next k (mkContext (index c) (Keys c) (response c) (output c ++ lines) (invoked c)).
Proof.
  revert c. induction lines as [|line lines IH]; intros c; simpl.
  - rewrite app_nil_r. now destruct c.
  - rewrite IH. unfold logPrintln. simpl. now rewrite <- app_assoc.
Qed.

(** C4: the code a stage places after its call to [Abort] still runs to
    the end of the function.  [Abort] returns to its caller having changed
    the cursor only, and the rest of the body runs from there; a stage that
    prints [before], calls [c.AbortWithStatusJSON] and prints [rest] returns
    with all of [before] and [rest] printed; on the [/abort] route of the
    tutorial the three lines of [abortMiddleware] are printed, the response is
    the 403, and the route's handler is not called. *)
Theorem code_after_abort_runs (next : Context -> Result) (k : Handler)
                              (before rest : list string) (code : Z) (body : string)
                              (c : Context) (fuel : nat) :
  run next (CallAbort k) c = run next k (Abort c) /\
  Abort c = mkContext 63 (Keys c) (response c) (output c) (invoked c) /\
  run next (printAll before (AbortWithStatusJSON code body (printAll rest Return))) c
  = (Finished, after c 63 (before ++ rest) [] (written code body)) /\
  Execute fuel [abortMiddleware; abortRouteHandler]
  = (Finished,
     mkContext 63 (fun _ => None) (Some (403, "{error: access denied}"%string))
               ["==> abortMiddleware: 准备 Abort"%string;
                "==> abortMiddleware: Abort 之后的代码仍执行"%string;
                "==> abortMiddleware: 函数结束"%string]
               [0]).
Proof.
  split; [reflexivity|]. split; [reflexivity|]. split; [|reflexivity].
  rewrite run_printAll. unfold AbortWithStatusJSON. cbn [run].
  rewrite run_printAll, written_WriteResponse. cbn [run].
  unfold after, Abort, setIndex. simpl.
  now rewrite <- app_assoc, app_nil_r.
Qed.

(** ** The write-once response *)

Lemma WriteResponse_set status body c :
  response c <> None -> WriteResponse status body c = c.
Proof. unfold WriteResponse. destruct (response c); [reflexivity|congruence]. Qed.

Lemma writeAll_set writes : forall c, response c <> None -> writeAll writes c = c.
Proof.
  induction writes as [|w writes IH]; intros c Hc; [reflexivity|].
  unfold writeAll in *. simpl. rewrite WriteResponse_set by assumption. now apply IH.
Qed.

(** C8: on a context whose response is not yet set, [WriteResponse] sets
    status and body; on a context whose response is set it changes nothing
    (and returns normally); so after a first write, a second write and any
    further sequence of writes leave the first payload in place. *)
Theorem write_once (c : Context) (s1 s2 : Z) (b1 b2 : string)
                   (later : list (Z * string)) :
  response c = None ->
  response (WriteResponse s1 b1 c) = Some (s1, b1) /\
  WriteResponse s2 b2 (WriteResponse s1 b1 c) = WriteResponse s1 b1 c /\
  response (writeAll ((s1, b1) :: (s2, b2) :: later) c) = Some (s1, b1) /\
  (forall c' s b, response c' <> None -> WriteResponse s b c' = c') /\
  (forall c' s b, WriteResponse s b c' <> c' -> response c' = None).
Proof.
  intros Hc.
  assert (H1 : response (WriteResponse s1 b1 c) = Some (s1, b1))
    by (unfold WriteResponse; rewrite Hc; reflexivity).
  split; [exact H1|].
  split; [apply WriteResponse_set; congruence|].
  split.
  - change (writeAll ((s1, b1) :: (s2, b2) :: later) c)
      with (writeAll ((s2, b2) :: later) (WriteResponse s1 b1 c)).
    rewrite writeAll_set by congruence. exact H1.
  - split.
    + intros c' s b. apply WriteResponse_set.
    + intros c' s b Hne. destruct (response c') eqn:E; [|reflexivity].
      exfalso. apply Hne. apply WriteResponse_set. congruence.
Qed.

Lemma write_once_witness :
  response newContext = None /\
  response (writeAll [(200, "first"%string); (500, "second"%string)] newContext)
  = Some (200, "first"%string).
Proof.
  split; [reflexivity|].
  apply (write_once newContext 200 500 "first" "second" []). reflexivity.
Defined.


(** * The token bucket: proofs *)

Section BucketFacts.

Local Open Scope Q_scope.

Lemma Qgtb_true x y : Qgtb x y = true <-> y < x.
Proof.
  unfold Qgtb. rewrite negb_true_iff.
  split; intros H.
  - apply Qnot_le_lt. intros Hle. apply Qle_bool_iff in Hle. congruence.
  - destruct (Qle_bool x y) eqn:E; [|reflexivity].
    apply Qle_bool_iff in E. lra.
Qed.

Lemma Qgtb_false x y : Qgtb x y = false <-> x <= y.
Proof.
  unfold Qgtb. rewrite negb_false_iff. apply Qle_bool_iff.
Qed.

Lemma Qle_bool_false x y : Qle_bool x y = false <-> y < x.
Proof.
  split; intros H.
  - apply Qnot_le_lt. intros Hle. apply Qle_bool_iff in Hle. congruence.
  - destruct (Qle_bool x y) eqn:E; [|reflexivity].
    apply Qle_bool_iff in E. lra.
Qed.

(** The fields [Allow] does not touch, and the time stamp. *)
Lemma Allow_fields now rl :
  rate (snd (Allow now rl)) = rate rl /\
  maxTokens (snd (Allow now rl)) = maxTokens rl /\
  lastUpdate (snd (Allow now rl)) = now.
Proof.
  unfold Allow.
  destruct (Qle_bool 1 _); simpl; repeat split.
Qed.

(** The clamp of the source is the minimum with the capacity. *)
Lemma clamp_min x cap : (if Qgtb x cap then cap else x) == Qmin cap x.
Proof.
  destruct (Qgtb x cap) eqn:E.
  - apply Qgtb_true in E. symmetry. apply Q.min_l. lra.
  - apply Qgtb_false in E. symmetry. apply Q.min_r. lra.
Qed.

End BucketFacts.

Section BucketProofs.

Local Open Scope Q_scope.

Lemma Allow_admit now rl :
  1 <= Qmin (maxTokens rl) (tokens rl + (now - lastUpdate rl) * rate rl) ->
  fst (Allow now rl) = true /\
  tokens (snd (Allow now rl))
  == Qmin (maxTokens rl) (tokens rl + (now - lastUpdate rl) * rate rl) - 1.
Proof.
  intros H. unfold Allow.
  pose proof (clamp_min (tokens rl + (now - lastUpdate rl) * rate rl) (maxTokens rl)) as Hc.
  destruct (Qle_bool 1 _) eqn:E; simpl.
  - split; [reflexivity|]. now rewrite Hc.
  - apply Qle_bool_false in E. rewrite Hc in E. lra.
Qed.

Lemma Allow_reject now rl :
  Qmin (maxTokens rl) (tokens rl + (now - lastUpdate rl) * rate rl) < 1 ->
  fst (Allow now rl) = false /\
  tokens (snd (Allow now rl))
  == Qmin (maxTokens rl) (tokens rl + (now - lastUpdate rl) * rate rl).
Proof.
  intros H. unfold Allow.
  pose proof (clamp_min (tokens rl + (now - lastUpdate rl) * rate rl) (maxTokens rl)) as Hc.
  destruct (Qle_bool 1 _) eqn:E; simpl.
  - apply Qle_bool_iff in E. rewrite Hc in E. lra.
  - split; [reflexivity|]. exact Hc.
Qed.


(** ** The capacity invariant *)

Lemma Allow_within now rl :
  0 <= rate rl -> lastUpdate rl <= now -> within (maxTokens rl) rl ->
  within (maxTokens rl) (snd (Allow now rl)).
Proof.
  intros Hr Ht [H0 Hc].
  assert (Hadd : 0 <= (now - lastUpdate rl) * rate rl)
    by (apply Qmult_le_0_compat; lra).
  pose proof (Q.le_min_l (maxTokens rl) (tokens rl + (now - lastUpdate rl) * rate rl)) as Hl.
  assert (Hlow : 0 <= Qmin (maxTokens rl) (tokens rl + (now - lastUpdate rl) * rate rl))
    by (apply Q.min_glb; lra).
  unfold within.
  destruct (Qlt_le_dec
              (Qmin (maxTokens rl) (tokens rl + (now - lastUpdate rl) * rate rl)) 1)
    as [Hlt|Hge].
  - destruct (Allow_reject now rl Hlt) as [_ Ht']. rewrite Ht'. lra.
  - destruct (Allow_admit now rl Hge) as [_ Ht']. rewrite Ht'. lra.
Qed.

Lemma observations_within : forall times rl,
  0 <= rate rl -> within (maxTokens rl) rl -> nondecreasing (lastUpdate rl) times ->
  Forall (within (maxTokens rl)) (observations times rl).
Proof.
  induction times as [|t times IH]; intros rl Hr Hw Hnd; simpl.
  - constructor; [assumption|constructor].
  - destruct Hnd as [Ht Hnd].
    pose proof (Allow_fields t rl) as [Er [Em El]].
    constructor; [assumption|].
    rewrite <- Em. apply IH.
    + now rewrite Er.
    + rewrite Em. now apply Allow_within.
    + now rewrite El.
Qed.

(** C6 (as amended): for every token bucket with rate r >= 0 and capacity
    c >= 0 created by the constructor and every finite sequence of [Allow]
    calls at non-decreasing instants (none before the construction), the token
    count before the first call and after each call is within [0, c],
    however long the idle periods. *)
Theorem tokens_within_capacity (s r c : Q) (times : list Q) :
  0 <= r -> 0 <= c -> nondecreasing s times ->
  Forall (fun rl => 0 <= tokens rl /\ tokens rl <= c)
         (observations times (NewRateLimiter s r c)).
Proof.
  intros Hr Hc Hnd.
  apply (observations_within times (NewRateLimiter s r c)); simpl; try assumption.
  unfold within; simpl. lra.
Qed.

Lemma tokens_within_capacity_witness :
  0 <= 5 /\ 0 <= 10 /\ nondecreasing 0 [1; 1; 1000] /\
  Forall (fun rl => 0 <= tokens rl /\ tokens rl <= 10)
         (observations [1; 1; 1000] (NewRateLimiter 0 5 10)).
Proof.
  assert (H5 : 0 <= 5) by lra.
  assert (H10 : 0 <= 10) by lra.
  assert (Hnd : nondecreasing 0 [1; 1; 1000]) by (simpl; repeat split; lra).
  split; [exact H5|]. split; [exact H10|]. split; [exact Hnd|].
  exact (tokens_within_capacity 0 5 10 [1; 1; 1000] H5 H10 Hnd).
Defined.

(** C6 as stated fails for a negative rate: the refill then takes tokens
    away and nothing clamps the count from below. *)
Lemma tokens_negative_with_negative_rate :
  let late := snd (Allow 20 (NewRateLimiter 0 (-1) 10)) in
  0 <= 10 /\ nondecreasing 0 [20] /\
  observations [20] (NewRateLimiter 0 (-1) 10) = [NewRateLimiter 0 (-1) 10; late] /\
  tokens late == -10 /\ tokens late < 0.
Proof.
  split; [lra|]. split; [simpl; split; [lra|exact I]|].
  split; [reflexivity|]. split; reflexivity.
Qed.

(** C10 (as amended): the bucket returned by [NewRateLimiter(r, c)] starts
    full, whatever r and c; for every rate r >= 0 and capacity c >= 1 the
    first [Allow] call, made at or after the construction, returns true. *)
Theorem new_bucket_starts_full (s now r c : Q) :
  tokens (NewRateLimiter s r c) = c /\
  (0 <= r -> 1 <= c -> s <= now -> fst (Allow now (NewRateLimiter s r c)) = true).
Proof.
  split; [reflexivity|].
  intros Hr Hc Ht. apply Allow_admit. simpl.
  assert (Hadd : 0 <= (now - s) * r) by (apply Qmult_le_0_compat; lra).
  apply Q.min_glb; lra.
Qed.

Lemma new_bucket_starts_full_witness :
  tokens (NewRateLimiter 0 5 10) = 10 /\ fst (Allow 3 (NewRateLimiter 0 5 10)) = true.
Proof.
  split.
  - exact (proj1 (new_bucket_starts_full 0 3 5 10)).
  - apply (proj2 (new_bucket_starts_full 0 3 5 10)); lra.
Defined.

(** C10 as stated fails for a negative rate: one second after its
    construction a bucket of capacity 1 and rate -1 holds no token. *)
Lemma first_call_rejected_with_negative_rate :
  tokens (NewRateLimiter 0 (-1) 1) = 1 /\
  1 <= 1 /\
  fst (Allow 1 (NewRateLimiter 0 (-1) 1)) = false.
Proof. split; [reflexivity|]. split; [lra|reflexivity]. Qed.

End BucketProofs.

Section BurstProofs.

Local Open Scope Q_scope.

Lemma Qfloor_unique (z : Z) (y : Q) :
  inject_Z z <= y -> y < inject_Z (z + 1) -> Qfloor y = z.
Proof.
  intros Hlo Hhi.
  pose proof (Qfloor_le y) as Hf. pose proof (Qlt_floor y) as Hc.
  assert (H1 : (Qfloor y < z + 1)%Z) by (rewrite Zlt_Qlt; lra).
  assert (H2 : (z < Qfloor y + 1)%Z) by (rewrite Zlt_Qlt; lra).
  lia.
Qed.

Lemma Qfloor_pred (y : Q) : Qfloor (y - 1) = (Qfloor y - 1)%Z.
Proof.
  pose proof (Qfloor_le y) as Hf. pose proof (Qlt_floor y) as Hc.
  apply Qfloor_unique.
  - unfold Z.sub. rewrite inject_Z_plus, inject_Z_opp. change (inject_Z 1) with 1. lra.
  - replace (Qfloor y - 1 + 1)%Z with (Qfloor y) by lia.
    rewrite inject_Z_plus in Hc. change (inject_Z 1) with 1 in Hc. lra.
Qed.

Lemma Qfloor_below_one (y : Q) : y < 1 -> Z.to_nat (Qfloor y) = 0%nat.
Proof.
  intros Hy. pose proof (Qfloor_le y) as Hf.
  assert (H : (Qfloor y < 1)%Z) by (rewrite Zlt_Qlt; change (inject_Z 1) with 1; lra).
  lia.
Qed.

Lemma Qfloor_from_one (y : Q) :
  1 <= y -> Z.to_nat (Qfloor y) = S (Z.to_nat (Qfloor (y - 1))).
Proof.
  intros Hy. rewrite Qfloor_pred.
  pose proof (Qfloor_resp_le 1 y Hy) as H. change (Qfloor 1) with 1%Z in H.
  lia.
Qed.

Lemma Qmin_eq_of a b x : b == x -> x <= a -> Qmin a b == x.
Proof. intros Hb Hx. rewrite Q.min_r; lra. Qed.

Lemma burst_from : forall n now rl x,
  Qmin (maxTokens rl) (tokens rl + (now - lastUpdate rl) * rate rl) == x ->
  burst n now rl
  = repeat true (Nat.min n (Z.to_nat (Qfloor x)))
    ++ repeat false (n - Z.to_nat (Qfloor x)).
Proof.
  induction n as [|n IH]; intros now rl x Hx; [reflexivity|].
  cbn [burst].
  pose proof (Allow_fields now rl) as [Er [Em El]].
  pose proof (Q.le_min_l (maxTokens rl) (tokens rl + (now - lastUpdate rl) * rate rl)) as Hcap.
  destruct (Qlt_le_dec x 1) as [Hlt|Hge].
  - destruct (Allow_reject now rl ltac:(lra)) as [Hb Ht].
    rewrite Hb, (IH now (snd (Allow now rl)) x).
    + rewrite (Qfloor_below_one x Hlt). rewrite Nat.min_0_r, !Nat.sub_0_r. reflexivity.
    + rewrite Er, Em, El. apply Qmin_eq_of; lra.
  - destruct (Allow_admit now rl ltac:(lra)) as [Hb Ht].
    rewrite Hb, (IH now (snd (Allow now rl)) (x - 1)).
    + rewrite (Qfloor_from_one x Hge). reflexivity.
    + rewrite Er, Em, El. apply Qmin_eq_of; lra.
Qed.





(** Calls serialised at one instant on a fresh bucket of capacity 1 (any
    rate r >= 0, any idle time T >= 0 since the construction): the first is
    admitted, every other one is rejected. *)
Theorem fresh_unit_bucket_admits_one (s r T : Q) (n : nat) :
  0 <= r -> 0 <= T ->
  burst (S n) (s + T) (NewRateLimiter s r 1) = true :: repeat false n.
Proof.
  intros Hr HT.
  rewrite (burst_from (S n) (s + T) (NewRateLimiter s r 1) 1).
  - change (Z.to_nat (Qfloor 1)) with 1%nat.
    simpl. now rewrite Nat.min_0_r, Nat.sub_0_r.
  - simpl. apply Q.min_l.
    assert (H : 0 <= T * r) by (apply Qmult_le_0_compat; assumption).
    assert (E : 1 + (s + T - s) * r == 1 + T * r) by ring.
    rewrite E. lra.
Qed.

Lemma fresh_unit_bucket_admits_one_witness :
  0 <= 5 /\ 0 <= 0 /\
  burst 4 (0 + 0) (NewRateLimiter 0 5 1) = [true; false; false; false].
Proof.
  assert (H5 : 0 <= 5) by lra.
  assert (H0 : 0 <= 0) by lra.
  split; [exact H5|]. split; [exact H0|].
  exact (fresh_unit_bucket_admits_one 0 5 0 3 H5 H0).
Defined.


End BurstProofs.

(** * The rate-limited route: the scenario of the specification *)

(** Chain Logger, RateLimit(rate 1, capacity 1), Auth, handler.  The first
    request is admitted (1 -> 0 tokens) and runs every handler, out through
    Auth and Logger; a second request at the same instant is rejected with
    429: Auth and the handler do not run, Logger still prints its exit
    line. *)
Theorem rate_limited_scenario :
  let first := limitedRequest 0 (NewRateLimiter 0 1 1) in
  let second := limitedRequest 0 (snd first) in
  (fst (fst first) = Finished /\
   invoked (snd (fst first)) = [0; 1; 2; 3]%Z /\
   response (snd (fst first)) = Some (200%Z, "OK"%string) /\
   output (snd (fst first))
   = [enterLine "Logger"; enterLine "Auth"; ">>> Handler"%string;
      exitLine "Auth"; exitLine "Logger"] /\
   (tokens (snd first) == 0)%Q) /\
  (fst (fst second) = Finished /\
   invoked (snd (fst second)) = [0; 1]%Z /\
   response (snd (fst second)) = Some (429%Z, "{error: rate_limit_exceeded}"%string) /\
   output (snd (fst second)) = [enterLine "Logger"; exitLine "Logger"]).
Proof. vm_compute. repeat split. Qed.

(** * The other middleware and handlers: proofs *)

Lemma wrapped_global : wrapped globalStages = [middleware1; middleware2; middleware3].
Proof. reflexivity. Qed.

Lemma handlerAt_tail front tail (k : nat) :
  handlerAt (front ++ tail) (Z.of_nat (List.length front + k)) = nth_error tail k.
Proof.
  unfold handlerAt.
  destruct (Z.ltb_spec (Z.of_nat (List.length front + k)) 0) as [Hneg|_]; [lia|].
  rewrite Nat2Z.id, nth_error_app2 by lia.
  f_equal. lia.
Qed.

Section Wrap.

Variable tail : list Handler.
(* What the call at the head of [tail] leaves behind. *)
Variables (J0 : Z) (O0 : list string) (I0 : list Z).
Variable R0 : option (Z * string) -> option (Z * string).
Variable G0 : (string -> option Value) -> string -> option Value.
Variable F0 : nat.
(* What that call needs of the key/value store. *)
Variable P : (string -> option Value) -> Prop.

Lemma placed_cons pre s stages :
  placed tail pre (s :: stages)
  = placed tail (pre ++ [loggingStage (fst s) (snd s)]) stages.
Proof. unfold placed. simpl. now rewrite <- app_assoc. Qed.

Lemma placed_length pre stages :
  List.length (placed tail pre stages)
  = (List.length pre + List.length stages + List.length tail)%nat.
Proof. unfold placed, wrapped. rewrite !length_app, length_map. lia. Qed.

Lemma wrap_layers : forall stages pre,
  (1 <= List.length tail)%nat ->
  Z.of_nat (List.length (placed tail pre stages)) <= 127 ->
  Z.of_nat (List.length (placed tail pre stages)) - 1 <= J0 ->
  J0 + Z.of_nat (List.length stages) <= 127 ->
  (forall c fuel,
      index c = Z.of_nat (List.length pre + List.length stages) ->
      P (Keys c) ->
      (F0 <= fuel)%nat ->
      invokeAt (Next fuel (placed tail pre stages)) (placed tail pre stages) c
      = (Finished, afterWith c J0 O0 I0 R0 G0)) ->
  forall c fuel,
    index c = Z.of_nat (List.length pre) ->
    P (Keys c) ->
    (F0 + List.length stages + 1 <= fuel)%nat ->
    invokeAt (Next fuel (placed tail pre stages)) (placed tail pre stages) c
    = (Finished,
       afterWith c (J0 + Z.of_nat (List.length stages))
                 (map fst stages ++ O0 ++ rev (map snd stages))
                 (positions (List.length pre) (List.length stages) ++ I0) R0 G0).
Proof.
  induction stages as [|s stages IH]; intros pre Ht HL HJ HJ' Hcore c fuel Hc HP Hfuel.
  - simpl. rewrite (Hcore c fuel);
      [ now rewrite Z.add_0_r, app_nil_r
      | rewrite Hc; f_equal; simpl; lia
      | assumption
      | simpl in Hfuel; lia ].
  - pose proof (placed_length pre (s :: stages)) as Hlen.
    rewrite placed_cons in *.
    set (hs := placed tail (pre ++ [loggingStage (fst s) (snd s)]) stages) in *.
    assert (Hpre : List.length (pre ++ [loggingStage (fst s) (snd s)])
                   = S (List.length pre))
      by (rewrite length_app; simpl; lia).
    simpl List.length in *.
    assert (Hat : handlerAt hs (Z.of_nat (List.length pre))
                  = Some (loggingStage (fst s) (snd s))).
    { unfold hs, placed. rewrite <- app_assoc. simpl. apply handlerAt_middle. }
    unfold invokeAt at 1. rewrite Hc, Hat.
    unfold loggingStage at 1. cbn [run].
    set (c1 := logPrintln (fst s) (noteCall c)).
    destruct fuel as [|f]; [lia|].
    unfold Next at 1.
    rewrite forLoop_step
      by (rewrite int8_id by lia; unfold c1; simpl; rewrite Hc, int8_id; lia).
    rewrite (IH (pre ++ [loggingStage (fst s) (snd s)])); fold hs; try lia; try assumption.
    + destruct f as [|f']; [lia|].
      rewrite forLoop_exit.
      * cbn [run]. f_equal.
        unfold afterWith, logPrintln, incrIndex, setIndex, c1, noteCall.
        simpl. rewrite int8_id by lia. rewrite Hc.
        f_equal.
        -- lia.
        -- rewrite <- !app_assoc. reflexivity.
        -- unfold positions. simpl. rewrite <- !app_assoc. simpl.
           rewrite Hpre. reflexivity.
      * unfold incrIndex, afterWith; simpl. rewrite !int8_id by lia. lia.
    + intros c' fuel' Hc' HP' Hf'. apply Hcore; [|assumption|lia].
      rewrite Hc'. f_equal. lia.
    + unfold incrIndex, c1; simpl. rewrite Hc, int8_id by lia. lia.
Qed.

End Wrap.

(** ** Entering the next handler, leaving the loop *)

Lemma Next_enter fuel handlers c h :
  Z.of_nat (List.length handlers) <= 127 ->
  -128 <= index c ->
  index c + 1 < Z.of_nat (List.length handlers) ->
  handlerAt handlers (index c + 1) = Some h ->
  Next (S fuel) handlers c
  = match run (Next fuel handlers) h (noteCall (incrIndex c)) with
    | (Finished, c') => forLoop fuel handlers (incrIndex c')
    | r => r
    end.
Proof.
  intros HL Hlo Hi Hat.
  assert (Ei : index (incrIndex c) = index c + 1)
    by (unfold incrIndex; simpl; apply int8_id; lia).
  unfold Next.
  rewrite forLoop_step by (rewrite Ei, int8_id by lia; lia).
  unfold invokeAt. now rewrite Ei, Hat.
Qed.

Lemma loop_done fuel handlers c :
  Z.of_nat (List.length handlers) <= 127 ->
  Z.of_nat (List.length handlers) - 1 <= index c < 127 ->
  forLoop (S fuel) handlers (incrIndex c) = (Finished, setIndex (index c + 1) c).
Proof. intros HL Hi. now apply (Next_past_end fuel handlers c). Qed.

(** A stage that only rejects ([c.AbortWithStatusJSON(code, body); return]),
    behind any logging stages and in front of any handlers. *)
Lemma rejected_in_place (P : (string -> option Value) -> Prop)
      stages core rest code body fuel :
  (forall next c, P (Keys c) ->
     run next core c
     = (Finished,
        mkContext abortIndex (Keys c) (written code body (response c))
                  (output c) (invoked c))) ->
  P (Keys newContext) ->
  (List.length stages + 1 + List.length rest <= 64)%nat ->
  (List.length stages + 1 <= fuel)%nat ->
  Execute fuel (wrapped stages ++ core :: rest)
  = (Finished,
     afterWith newContext (63 + Z.of_nat (List.length stages))
               (map fst stages ++ rev (map snd stages))
               (positions 0 (S (List.length stages)))
               (written code body) (fun keys => keys)).
Proof.
  intros Hcore HP HL Hfuel. unfold Execute.
  change (wrapped stages ++ core :: rest) with (placed (core :: rest) [] stages).
  pose proof (placed_length (core :: rest) [] stages) as Hlen. simpl in Hlen.
  rewrite (wrap_layers (core :: rest) 63 [] [Z.of_nat (List.length stages)]
             (written code body) (fun keys => keys) 0 P stages []);
    try lia; try (simpl; lia); try assumption.
  - f_equal. unfold afterWith. f_equal.
    unfold positions. rewrite seq_S, map_app. reflexivity.
  - intros c f Hc HPc _. simpl in Hc.
    unfold invokeAt. rewrite Hc.
    replace (Z.of_nat (List.length stages))
      with (Z.of_nat (List.length (wrapped stages))) at 1
      by (unfold wrapped; now rewrite length_map).
    unfold placed. simpl. rewrite handlerAt_middle.
    rewrite Hcore by exact HPc.
    unfold afterWith, noteCall. simpl. rewrite Hc, app_nil_r. reflexivity.
Qed.

Lemma handlerAt_placed tail stages (k : nat) (z : Z) :
  z = Z.of_nat (List.length stages) + Z.of_nat k ->
  handlerAt (placed tail [] stages) z = nth_error tail k.
Proof.
  intros ->. unfold placed. simpl.
  rewrite <- (handlerAt_tail (wrapped stages) tail k).
  f_equal. unfold wrapped. rewrite length_map. lia.
Qed.

(** ** [authMiddleware] and [adminMiddleware] *)

Lemma authMiddleware_short token :
  (String.length token < 10)%nat ->
  exists msg, authMiddleware token = AbortWithStatusJSON 401 msg Return.
Proof.
  intros Hlen. unfold authMiddleware.
  destruct (String.eqb token ""); [eauto|].
  destruct (Nat.ltb_spec (String.length token) 10); [eauto|lia].
Qed.

Lemma authMiddleware_long token :
  (10 <= String.length token)%nat ->
  authMiddleware token
  = SetKey "user_id" (VInt 1001)
      (SetKey "username" (VString "authenticated_user") (CallNext Return)).
Proof.
  intros Hlen. unfold authMiddleware.
  destruct (String.eqb_spec token "") as [->|_]; [simpl in Hlen; lia|].
  destruct (Nat.ltb_spec (String.length token) 10); [lia|reflexivity].
Qed.

(** A request whose [Authorization] header is shorter than 10 bytes (or
    missing) is answered 401 by [authMiddleware], wherever the stage stands
    behind logging stages and whatever follows it in a chain of at most 64
    handlers: no later handler is called, no user is recorded, and the logging
    stages in front still print their exit lines. *)
Theorem auth_rejects_short_token (stages : list (string * string)) (token : string)
                                 (rest : list Handler) (fuel : nat) :
  (String.length token < 10)%nat ->
  (List.length stages + 1 + List.length rest <= 64)%nat ->
  (List.length stages + 1 <= fuel)%nat ->
  let r := Execute fuel (wrapped stages ++ authMiddleware token :: rest) in
  fst r = Finished /\
  invoked (snd r) = positions 0 (S (List.length stages)) /\
  (exists msg, response (snd r) = Some (401, msg)) /\
  output (snd r) = map fst stages ++ rev (map snd stages) /\
  Get "user_id" (snd r) = None.
Proof.
  intros Hlen HL Hfuel r. unfold r.
  destruct (authMiddleware_short token Hlen) as [msg ->].
  rewrite (rejected_in_place (fun _ => True) stages _ rest 401 msg fuel);
    try assumption; try exact I.
  - simpl. repeat split. now exists msg.
  - intros next c _. unfold AbortWithStatusJSON. cbn [run].
    now rewrite written_WriteResponse.
Qed.

Lemma auth_rejects_short_token_witness :
  (String.length "abc" < 10)%nat /\
  (List.length globalStages + 1 + List.length [profileHandler] <= 64)%nat /\
  (List.length globalStages + 1 <= 4)%nat /\
  let r := Execute 4 (wrapped globalStages ++ authMiddleware "abc" :: [profileHandler]) in
  fst r = Finished /\
  invoked (snd r) = positions 0 (S (List.length globalStages)) /\
  (exists msg, response (snd r) = Some (401, msg)) /\
  output (snd r) = map fst globalStages ++ rev (map snd globalStages) /\
  Get "user_id" (snd r) = None.
Proof.
  split; [simpl; lia|]. split; [simpl; lia|]. split; [simpl; lia|].
  apply (auth_rejects_short_token globalStages "abc" [profileHandler] 4); simpl; lia.
Defined.

(* Contexts are nested records: reduce the projections from the inside. *)
Ltac ctx_norm :=
  unfold afterWith;
  cbn [setIndex noteCall incrIndex Set_ logPrintln Abort
       index Keys response output invoked].

Ltac norm_int8 :=
  repeat match goal with
         | |- context [int8 ?z] => rewrite (int8_id z) by lia
         end.

Lemma admin_route_result stages token fuel :
  (10 <= String.length token)%nat ->
  (List.length stages + 3 <= 64)%nat ->
  (List.length stages + 4 <= fuel)%nat ->
  Execute fuel (wrapped stages ++ [authMiddleware token; adminMiddleware; adminHandler])
  = (Finished,
     afterWith newContext (2 * Z.of_nat (List.length stages) + 4)
               (map fst stages ++ rev (map snd stages))
               (positions 0 (List.length stages + 3))
               (written 200 "{message: admin dashboard}") authKeys).
Proof.
  intros Hlen HL Hfuel. unfold Execute.
  set (tail := [authMiddleware token; adminMiddleware; adminHandler]).
  change (wrapped stages ++ tail) with (placed tail [] stages).
  pose proof (placed_length tail [] stages) as Hlength. simpl in Hlength.
  set (n := Z.of_nat (List.length stages)).
  assert (Hn : 0 <= n <= 61) by (unfold n; lia).
  assert (HLz : Z.of_nat (List.length (placed tail [] stages)) = n + 3)
    by (unfold n; lia).
  rewrite (wrap_layers tail (n + 4) [] [n; n + 1; n + 2]
             (written 200 "{message: admin dashboard}") authKeys 3
             (fun _ => True) stages []);
    try (unfold n; lia); try (unfold n; simpl; lia); try exact I.
  - f_equal. unfold afterWith. f_equal; try (unfold n; lia).
    unfold positions.
    replace (List.length stages + 3)%nat with (S (S (S (List.length stages)))) by lia.
    rewrite !seq_S, !map_app. simpl. rewrite <- !app_assoc. simpl.
    unfold n. repeat f_equal; lia.
  - intros c f Hc _ Hf. simpl in Hc. fold n in Hc.
    unfold invokeAt.
    rewrite (handlerAt_placed tail stages 0) by (rewrite Hc; unfold n; lia).
    simpl nth_error. rewrite authMiddleware_long by assumption. cbn [run].
    destruct f as [|f]; [lia|].
    rewrite (Next_enter f _ _ adminMiddleware);
      [ | lia | simpl; lia | simpl; lia
        | apply (handlerAt_placed tail stages 1); simpl; rewrite Hc; unfold n; lia ].
    unfold adminMiddleware. cbn [run].
    change (Get "user_id" _) with (Some (VInt 1001)).
    cbn [valueEqb Z.eqb Pos.eqb negb run].
    destruct f as [|f]; [lia|].
    rewrite (Next_enter f _ _ adminHandler);
      [ | lia | simpl; norm_int8; lia | simpl; norm_int8; lia
        | apply (handlerAt_placed tail stages 2); simpl; norm_int8; unfold n; lia ].
    unfold adminHandler. cbn [run].
    rewrite written_WriteResponse.
    destruct f as [|f]; [lia|].
    rewrite loop_done; [ | lia | simpl; norm_int8; lia ].
    cbn [run].
    rewrite loop_done; [ | lia | simpl; norm_int8; lia ].
    f_equal. ctx_norm. norm_int8. rewrite Hc.
    rewrite app_nil_r, <- !app_assoc. simpl.
    replace (n + 1 + 1 + 1 + 1) with (n + 4) by lia.
    replace (n + 1 + 1) with (n + 2) by lia.
    reflexivity.
Qed.

(** On [/admin/dashboard] ([authMiddleware], [adminMiddleware], handler,
    behind any logging stages, at most 64 handlers in all) every request whose
    [Authorization] header has at least 10 bytes reaches the handler and is
    answered 200: [adminMiddleware] finds the user id [authMiddleware] has
    just recorded, so neither its 401 nor its 403 answer is given there. *)
Theorem admin_route_admits (stages : list (string * string)) (token : string)
                           (fuel : nat) :
  (10 <= String.length token)%nat ->
  (List.length stages + 3 <= 64)%nat ->
  (List.length stages + 4 <= fuel)%nat ->
  let r := Execute fuel
             (wrapped stages ++ [authMiddleware token; adminMiddleware; adminHandler]) in
  fst r = Finished /\
  invoked (snd r) = positions 0 (List.length stages + 3) /\
  response (snd r) = Some (200, "{message: admin dashboard}"%string) /\
  Get "user_id" (snd r) = Some (VInt 1001) /\
  output (snd r) = map fst stages ++ rev (map snd stages).
Proof.
  intros Hlen HL Hfuel r. unfold r.
  rewrite admin_route_result by assumption.
  simpl. repeat split.
Qed.

Lemma admin_route_admits_witness :
  (10 <= String.length "Bearer token")%nat /\
  (List.length globalStages + 3 <= 64)%nat /\
  (List.length globalStages + 4 <= 7)%nat /\
  let r := Execute 7
             (wrapped globalStages
              ++ [authMiddleware "Bearer token"; adminMiddleware; adminHandler]) in
  fst r = Finished /\
  invoked (snd r) = positions 0 (List.length globalStages + 3) /\
  response (snd r) = Some (200, "{message: admin dashboard}"%string) /\
  Get "user_id" (snd r) = Some (VInt 1001) /\
  output (snd r) = map fst globalStages ++ rev (map snd globalStages).
Proof.
  split; [simpl; lia|]. split; [simpl; lia|]. split; [simpl; lia|].
  apply (admin_route_admits globalStages "Bearer token" 7); simpl; lia.
Defined.

Lemma admin_without_user stages rest fuel :
  (List.length stages + 1 + List.length rest <= 64)%nat ->
  (List.length stages + 1 <= fuel)%nat ->
  Execute fuel (wrapped stages ++ adminMiddleware :: rest)
  = (Finished,
     afterWith newContext (63 + Z.of_nat (List.length stages))
               (map fst stages ++ rev (map snd stages))
               (positions 0 (S (List.length stages)))
               (written 401 "{error: user not authenticated}") (fun keys => keys)).
Proof.
  intros HL Hfuel.
  apply (rejected_in_place (fun keys => keys "user_id"%string = None));
    try assumption; try reflexivity.
  intros next c HP. unfold adminMiddleware, AbortWithStatusJSON. cbn [run].
  unfold Get. rewrite HP. cbn [run]. now rewrite written_WriteResponse.
Qed.

Lemma admin_after_setData stages now rest fuel :
  (List.length stages + 2 + List.length rest <= 64)%nat ->
  (List.length stages + 3 <= fuel)%nat ->
  Execute fuel (wrapped stages ++ setDataMiddleware now :: adminMiddleware :: rest)
  = (Finished,
     afterWith newContext (64 + Z.of_nat (List.length stages))
               (map fst stages ++ rev (map snd stages))
               (positions 0 (List.length stages + 2))
               (written 403 "{error: admin access required}") (dataKeys now)).
Proof.
  intros HL Hfuel. unfold Execute.
  set (tail := setDataMiddleware now :: adminMiddleware :: rest).
  change (wrapped stages ++ tail) with (placed tail [] stages).
  pose proof (placed_length tail [] stages) as Hlength. simpl in Hlength.
  set (n := Z.of_nat (List.length stages)).
  assert (Hn : 0 <= n <= 62) by (unfold n; lia).
  assert (HLz : Z.of_nat (List.length (placed tail [] stages)) <= 64) by lia.
  assert (HLn : n + 2 <= Z.of_nat (List.length (placed tail [] stages)))
    by (unfold n; lia).
  rewrite (wrap_layers tail 64 [] [n; n + 1]
             (written 403 "{error: admin access required}") (dataKeys now) 2
             (fun _ => True) stages []);
    try (unfold n; lia); try (unfold n; simpl; lia); try exact I.
  - f_equal. unfold afterWith. f_equal; try (unfold n; lia).
    unfold positions.
    replace (List.length stages + 2)%nat with (S (S (List.length stages))) by lia.
    rewrite !seq_S, !map_app. simpl. rewrite <- !app_assoc. simpl.
    unfold n. repeat f_equal; lia.
  - intros c f Hc _ Hf. simpl in Hc. fold n in Hc.
    unfold invokeAt.
    rewrite (handlerAt_placed tail stages 0) by (rewrite Hc; unfold n; lia).
    simpl nth_error. unfold setDataMiddleware. cbn [run].
    destruct f as [|f]; [lia|].
    rewrite (Next_enter f _ _ adminMiddleware);
      [ | lia | simpl; lia | simpl; lia
        | apply (handlerAt_placed tail stages 1); simpl; rewrite Hc; unfold n; lia ].
    unfold adminMiddleware, AbortWithStatusJSON. cbn [run].
    change (Get "user_id" _) with (Some (VInt 12345)).
    cbn [valueEqb Z.eqb Pos.eqb negb run].
    rewrite written_WriteResponse.
    destruct f as [|f]; [lia|].
    rewrite forLoop_exit
      by (rewrite int8_id by lia; unfold incrIndex; simpl; vm_compute int8; lia).
    f_equal. ctx_norm. norm_int8. rewrite Hc.
    rewrite app_nil_r, <- !app_assoc. simpl. reflexivity.
Qed.

(** [adminMiddleware] lets a request through only when the user id recorded
    upstream is the integer 1001.  Behind logging stages alone no user id is
    recorded and the answer is 401; behind [setDataMiddleware], which records
    user 12345, the answer is 403.  In both cases, in a chain of at most 64
    handlers, no handler after [adminMiddleware] is called. *)
Theorem admin_gate (stages : list (string * string)) (now : Value)
                   (rest : list Handler) (fuel : nat) :
  (List.length stages + 2 + List.length rest <= 64)%nat ->
  (List.length stages + 3 <= fuel)%nat ->
  let r1 := Execute fuel (wrapped stages ++ adminMiddleware :: rest) in
  let r2 := Execute fuel
              (wrapped stages ++ setDataMiddleware now :: adminMiddleware :: rest) in
  (fst r1 = Finished /\
   invoked (snd r1) = positions 0 (S (List.length stages)) /\
   response (snd r1) = Some (401, "{error: user not authenticated}"%string)) /\
  (fst r2 = Finished /\
   invoked (snd r2) = positions 0 (List.length stages + 2) /\
   response (snd r2) = Some (403, "{error: admin access required}"%string) /\
   Get "user_id" (snd r2) = Some (VInt 12345)).
Proof.
  intros HL Hfuel r1 r2. unfold r1, r2.
  rewrite admin_without_user by lia.
  rewrite admin_after_setData by assumption.
  simpl. repeat split.
Qed.

Lemma admin_gate_witness :
  (List.length globalStages + 2 + List.length [adminHandler] <= 64)%nat /\
  (List.length globalStages + 3 <= 6)%nat /\
  response (snd (Execute 6 (wrapped globalStages
                            ++ setDataMiddleware (VString "12:00") :: adminMiddleware
                            :: [adminHandler])))
  = Some (403, "{error: admin access required}"%string).
Proof.
  split; [simpl; lia|]. split; [simpl; lia|].
  apply (admin_gate globalStages (VString "12:00") [adminHandler] 6); simpl; lia.
Defined.

(** ** [setDataMiddleware] and the handler of [/data] *)

Lemma data_route_result stages now fuel :
  (List.length stages + 2 <= 64)%nat ->
  (List.length stages + 3 <= fuel)%nat ->
  Execute fuel (wrapped stages ++ [setDataMiddleware now; dataHandler])
  = (Finished,
     afterWith newContext (2 * Z.of_nat (List.length stages) + 2)
               (map fst stages ++ rev (map snd stages))
               (positions 0 (List.length stages + 2))
               (written 200 (dataBody (Some (VInt 12345)) (Some (VString "张三"))
                                      (Some now)))
               (dataKeys now)).
Proof.
  intros HL Hfuel. unfold Execute.
  set (tail := [setDataMiddleware now; dataHandler]).
  change (wrapped stages ++ tail) with (placed tail [] stages).
  pose proof (placed_length tail [] stages) as Hlength. simpl in Hlength.
  set (n := Z.of_nat (List.length stages)).
  assert (Hn : 0 <= n <= 62) by (unfold n; lia).
  assert (HLz : Z.of_nat (List.length (placed tail [] stages)) = n + 2)
    by (unfold n; lia).
  rewrite (wrap_layers tail (n + 2) [] [n; n + 1]
             (written 200 (dataBody (Some (VInt 12345)) (Some (VString "张三"))
                                    (Some now)))
             (dataKeys now) 2 (fun _ => True) stages []);
    try (unfold n; lia); try (unfold n; simpl; lia); try exact I.
  - f_equal. unfold afterWith. f_equal; try (unfold n; lia).
    unfold positions.
    replace (List.length stages + 2)%nat with (S (S (List.length stages))) by lia.
    rewrite !seq_S, !map_app. simpl. rewrite <- !app_assoc. simpl.
    unfold n. repeat f_equal; lia.
  - intros c f Hc _ Hf. simpl in Hc. fold n in Hc.
    unfold invokeAt.
    rewrite (handlerAt_placed tail stages 0) by (rewrite Hc; unfold n; lia).
    simpl nth_error. unfold setDataMiddleware. cbn [run].
    destruct f as [|f]; [lia|].
    rewrite (Next_enter f _ _ dataHandler);
      [ | lia | simpl; lia | simpl; lia
        | apply (handlerAt_placed tail stages 1); simpl; rewrite Hc; unfold n; lia ].
    unfold dataHandler. cbn [run].
    change (Get "user_id" _) with (Some (VInt 12345)). cbn iota. cbn [run].
    change (Get "username" _) with (Some (VString "张三")).
    change (Get "request_time" _) with (Some now).
    cbn [run]. rewrite written_WriteResponse.
    destruct f as [|f]; [lia|].
    rewrite loop_done; [ | lia | simpl; norm_int8; lia ].
    f_equal. ctx_norm. norm_int8. rewrite Hc.
    rewrite app_nil_r, <- !app_assoc. simpl.
    replace (n + 1 + 1) with (n + 2) by lia. reflexivity.
Qed.

Lemma data_handler_alone stages fuel :
  (List.length stages + 1 <= 64)%nat ->
  (List.length stages + 1 <= fuel)%nat ->
  Execute fuel (wrapped stages ++ [dataHandler])
  = (Finished,
     afterWith newContext (2 * Z.of_nat (List.length stages))
               (map fst stages ++ rev (map snd stages))
               (positions 0 (List.length stages + 1))
               (written 500 "{error: user_id not found}") (fun keys => keys)).
Proof.
  intros HL Hfuel. unfold Execute.
  set (tail := [dataHandler]).
  change (wrapped stages ++ tail) with (placed tail [] stages).
  pose proof (placed_length tail [] stages) as Hlength. simpl in Hlength.
  set (n := Z.of_nat (List.length stages)).
  rewrite (wrap_layers tail n [] [n]
             (written 500 "{error: user_id not found}") (fun keys => keys) 0
             (fun keys => keys "user_id"%string = None) stages []);
    try (unfold n; lia); try (unfold n; simpl; lia); try reflexivity.
  - f_equal. unfold afterWith. f_equal; try (unfold n; lia).
    unfold positions.
    replace (List.length stages + 1)%nat with (S (List.length stages)) by lia.
    rewrite !seq_S, !map_app. reflexivity.
  - intros c f Hc HP _. simpl in Hc. fold n in Hc.
    unfold invokeAt.
    rewrite (handlerAt_placed tail stages 0) by (rewrite Hc; unfold n; lia).
    simpl nth_error. unfold dataHandler. cbn [run].
    unfold Get. simpl Keys. rewrite HP. cbn [run].
    rewrite written_WriteResponse.
    unfold afterWith, noteCall. simpl. rewrite Hc, app_nil_r. reflexivity.
Qed.

(** What [setDataMiddleware] stores reaches the handler of [/data] through
    [c.Get], behind any logging stages: the answer is 200 with the user id
    12345, the user name and the request time of the stage.  The same handler
    without [setDataMiddleware] in front finds no [user_id] and answers 500. *)
Theorem data_reaches_handler (stages : list (string * string)) (now : Value)
                             (fuel : nat) :
  (List.length stages + 2 <= 64)%nat ->
  (List.length stages + 3 <= fuel)%nat ->
  let r1 := Execute fuel (wrapped stages ++ [setDataMiddleware now; dataHandler]) in
  let r2 := Execute fuel (wrapped stages ++ [dataHandler]) in
  (fst r1 = Finished /\
   invoked (snd r1) = positions 0 (List.length stages + 2) /\
   response (snd r1)
   = Some (200, dataBody (Some (VInt 12345)) (Some (VString "张三")) (Some now))) /\
  (fst r2 = Finished /\
   invoked (snd r2) = positions 0 (List.length stages + 1) /\
   response (snd r2) = Some (500, "{error: user_id not found}"%string)).
Proof.
  intros HL Hfuel r1 r2. unfold r1, r2.
  rewrite data_route_result by assumption.
  rewrite data_handler_alone by lia.
  simpl. repeat split.
Qed.

Lemma data_reaches_handler_witness :
  (List.length globalStages + 2 <= 64)%nat /\
  (List.length globalStages + 3 <= 6)%nat /\
  response (snd (Execute 6 (wrapped globalStages
                            ++ [setDataMiddleware (VString "12:00"); dataHandler])))
  = Some (200, dataBody (Some (VInt 12345)) (Some (VString "张三"))
                        (Some (VString "12:00"))).
Proof.
  split; [simpl; lia|]. split; [simpl; lia|].
  apply (data_reaches_handler globalStages (VString "12:00") 6); simpl; lia.
Defined.

(** * More on the token bucket *)

Section BucketRate.

Local Open Scope Q_scope.




Lemma afterCalls_fields : forall times rl,
  rate (afterCalls times rl) = rate rl /\
  maxTokens (afterCalls times rl) = maxTokens rl.
Proof.
  induction times as [|t times IH]; intros rl; [now split|].
  simpl. destruct (IH (snd (Allow t rl))) as [Hr Hm].
  destruct (Allow_fields t rl) as [Er [Em _]].
  split; congruence.
Qed.







End BucketRate.

(** ** Bursts on the rate-limited route *)






(** ** Bearer authentication, tokens and request ids *)

Import Ascii.

Lemma cutAtSpace_Some s : forall l r,
  cutAtSpace s = Some (l, r) -> s = (l ++ " " ++ r)%string.
Proof.
  induction s as [|a s IH]; intros l r H; simpl in H; [discriminate|].
  destruct (Ascii.eqb a " "%char) eqn:Ea.
  - apply Ascii.eqb_eq in Ea. inversion H; subst. reflexivity.
  - destruct (cutAtSpace s) as [[l' r']|]; [|discriminate].
    inversion H; subst. simpl. f_equal. now apply IH.
Qed.

Lemma JWTAuthMiddleware_accept token :
  (20 <= String.length token)%nat ->
  JWTAuthMiddleware ("Bearer " ++ token)
  = SetKey "user_id" (VInt 1001)
      (SetKey "username" (VString "test_user") (CallNext Return)).
Proof.
  intros Hlen. unfold JWTAuthMiddleware, SplitN. simpl.
  destruct (Nat.ltb_spec (String.length token) 20); [lia|reflexivity].
Qed.

Lemma JWTAuthMiddleware_reject authHeader :
  ~ (exists token, authHeader = ("Bearer " ++ token)%string
                   /\ (20 <= String.length token)%nat) ->
  exists msg, JWTAuthMiddleware authHeader = AbortWithStatusJSON 401 msg Return.
Proof.
  intros Hno. unfold JWTAuthMiddleware.
  destruct (String.eqb authHeader ""); [eauto|].
  unfold SplitN. destruct (cutAtSpace authHeader) as [[l r]|] eqn:Ecut.
  - cbn [List.length Nat.eqb negb orb nth].
    destruct (String.eqb l "Bearer") eqn:El; cbn [negb]; [|eauto].
    destruct (Nat.ltb_spec (String.length r) 20); [eauto|].
    exfalso. apply Hno. exists r. split; [|assumption].
    apply String.eqb_eq in El. subst l.
    now apply cutAtSpace_Some in Ecut.
  - cbn [List.length Nat.eqb negb orb]. eauto.
Qed.

Lemma EncodeToString_length src :
  String.length (EncodeToString src) = (2 * List.length src)%nat.
Proof. induction src as [|v src IH]; simpl; [reflexivity|]. rewrite IH. lia. Qed.

Lemma randRead_length n random : List.length (randRead n random) = n.
Proof.
  unfold randRead. rewrite length_firstn, length_app, repeat_length. lia.
Qed.

Lemma generateToken_length random : String.length (generateToken random) = 64%nat.
Proof.
  unfold generateToken. now rewrite EncodeToString_length, randRead_length.
Qed.

Lemma generateRequestID_length random :
  String.length (generateRequestID random) = 32%nat.
Proof.
  unfold generateRequestID. now rewrite EncodeToString_length, randRead_length.
Qed.

Lemma handlerAt_placed_behind tail pre stages (k : nat) (z : Z) :
  z = Z.of_nat (List.length pre) + Z.of_nat (List.length stages) + Z.of_nat k ->
  handlerAt (placed tail pre stages) z = nth_error tail k.
Proof.
  intros ->. unfold placed. rewrite app_assoc.
  rewrite <- (handlerAt_tail (pre ++ wrapped stages) tail k).
  f_equal. unfold wrapped. rewrite length_app, length_map. lia.
Qed.

Lemma Next_invoke fuel handlers c :
  Z.of_nat (List.length handlers) <= 127 ->
  -128 <= index c ->
  index c + 1 < Z.of_nat (List.length handlers) ->
  Next (S fuel) handlers c
  = match invokeAt (Next fuel handlers) handlers (incrIndex c) with
    | (Finished, c') => forLoop fuel handlers (incrIndex c')
    | r => r
    end.
Proof.
  intros HL Hlo Hhi. unfold Next at 1. rewrite forLoop_eq.
  assert (Hi : index (incrIndex c) = index c + 1).
  { unfold incrIndex. cbn [index]. apply int8_id. lia. }
  rewrite Hi, int8_id by lia.
  destruct (Z.ltb_spec (index c + 1) (Z.of_nat (List.length handlers))); [|lia].
  reflexivity.
Qed.

Lemma api_profile_from pre stages token v :
  (20 <= String.length token)%nat ->
  (List.length pre + List.length stages + 2 <= 64)%nat ->
  forall c fuel,
    index c = Z.of_nat (List.length pre) ->
    Keys c "request_id"%string = v ->
    (List.length stages + 3 <= fuel)%nat ->
    invokeAt
      (Next fuel (placed [JWTAuthMiddleware ("Bearer " ++ token); apiProfileHandler]
                         pre stages))
      (placed [JWTAuthMiddleware ("Bearer " ++ token); apiProfileHandler] pre stages) c
    = (Finished,
       afterWith c
         (Z.of_nat (List.length pre) + Z.of_nat (List.length stages) + 2
          + Z.of_nat (List.length stages))
         (map fst stages ++ [] ++ rev (map snd stages))
         (positions (List.length pre) (List.length stages)
          ++ [Z.of_nat (List.length pre) + Z.of_nat (List.length stages);
              Z.of_nat (List.length pre) + Z.of_nat (List.length stages) + 1])
         (written 200 (profileBody (Some (VInt 1001)) (Some (VString "test_user")) v))
         jwtKeys).
Proof.
  intros Hlen HL.
  set (tail := [JWTAuthMiddleware ("Bearer " ++ token); apiProfileHandler]).
  pose proof (placed_length tail pre stages) as Hlength. simpl in Hlength.
  set (n := Z.of_nat (List.length pre) + Z.of_nat (List.length stages)).
  assert (Hn : 0 <= n <= 62) by (unfold n; lia).
  assert (HLz : Z.of_nat (List.length (placed tail pre stages)) = n + 2)
    by (unfold n; lia).
  intros c fuel Hc Hv Hfuel.
  apply (wrap_layers tail (n + 2) [] [n; n + 1]
           (written 200 (profileBody (Some (VInt 1001)) (Some (VString "test_user")) v))
           jwtKeys 2 (fun keys => keys "request_id"%string = v) stages pre);
    try (unfold n; lia); try (unfold n; simpl; lia); try assumption.
  clear c fuel Hc Hv Hfuel. intros c f Hc Hv Hf.
  assert (Hc' : index c = n) by (unfold n; lia).
  unfold invokeAt.
  rewrite (handlerAt_placed_behind tail pre stages 0) by (rewrite Hc'; unfold n; lia).
  change (nth_error tail 0) with (Some (JWTAuthMiddleware ("Bearer " ++ token))).
  cbv beta iota. rewrite JWTAuthMiddleware_accept by assumption. cbn [run].
  destruct f as [|f]; [lia|].
  rewrite (Next_enter f _ _ apiProfileHandler);
    [ | lia | simpl; lia | simpl; lia
      | apply (handlerAt_placed_behind tail pre stages 1); simpl; rewrite Hc';
        unfold n; lia ].
  unfold apiProfileHandler. cbn [run].
  change (Get "user_id" _) with (Some (VInt 1001)).
  change (Get "username" _) with (Some (VString "test_user")).
  change (Get "request_id" _) with (Keys c "request_id"%string).
  rewrite Hv, written_WriteResponse.
  destruct f as [|f]; [lia|].
  rewrite loop_done; [ | lia | simpl; norm_int8; lia ].
  f_equal. ctx_norm. norm_int8. rewrite Hc'.
  rewrite app_nil_r, <- !app_assoc. cbn [app].
  replace (n + 1 + 1) with (n + 2) by lia. reflexivity.
Qed.

Lemma bearer_cases authHeader : bearer authHeader \/ ~ bearer authHeader.
Proof.
  unfold bearer.
  destruct (cutAtSpace authHeader) as [[l r]|] eqn:Ecut.
  - destruct (String.eqb_spec l "Bearer") as [El|El].
    + destruct (le_lt_dec 20 (String.length r)) as [Hr|Hr].
      * left. exists r. split; [|assumption].
        subst l. now apply cutAtSpace_Some in Ecut.
      * right. intros [token [E Hlen]]. subst authHeader.
        simpl in Ecut. inversion Ecut; subst. lia.
    + right. intros [token [E Hlen]]. subst authHeader.
      simpl in Ecut. inversion Ecut; subst. now apply El.
  - right. intros [token [E Hlen]]. subst authHeader. simpl in Ecut. discriminate.
Qed.

Lemma api_profile_result stages token fuel :
  (20 <= String.length token)%nat ->
  (List.length stages + 2 <= 64)%nat ->
  (List.length stages + 3 <= fuel)%nat ->
  Execute fuel (wrapped stages
                ++ [JWTAuthMiddleware ("Bearer " ++ token); apiProfileHandler])
  = (Finished,
     afterWith newContext (2 * Z.of_nat (List.length stages) + 2)
       (map fst stages ++ rev (map snd stages))
       (positions 0 (List.length stages + 2))
       (written 200 (profileBody (Some (VInt 1001)) (Some (VString "test_user")) None))
       jwtKeys).
Proof.
  intros Hlen HL Hfuel. unfold Execute.
  change (wrapped stages ++ ?t) with (placed t [] stages).
  rewrite (api_profile_from [] stages token None Hlen) by (simpl; auto; lia).
  f_equal. unfold afterWith. cbn [List.length Nat.add Z.of_nat Z.add app].
  f_equal; try lia.
  unfold positions.
  replace (List.length stages + 2)%nat with (S (S (List.length stages))) by lia.
  rewrite !seq_S, !map_app. simpl. rewrite <- !app_assoc. simpl.
  repeat f_equal; lia.
Qed.

(** [JWTAuthMiddleware] in front of the handler of [/api/profile], behind any
    logging stages (at most 64 handlers in all): the request is answered 200,
    and the handler is called, exactly when the [Authorization] header is
    [Bearer], one space, and a token of at least 20 bytes; every other header
    (missing, another scheme, no space, a shorter token) is answered 401. *)
Theorem bearer_gate (stages : list (string * string)) (authHeader : string)
                    (fuel : nat) :
  (List.length stages + 2 <= 64)%nat ->
  (List.length stages + 3 <= fuel)%nat ->
  let r := Execute fuel (wrapped stages
                         ++ [JWTAuthMiddleware authHeader; apiProfileHandler]) in
  fst r = Finished /\
  ((exists body, response (snd r) = Some (200, body)) <-> bearer authHeader) /\
  (In (Z.of_nat (List.length stages) + 1) (invoked (snd r)) <-> bearer authHeader) /\
  (~ bearer authHeader -> exists msg, response (snd r) = Some (401, msg)).
Proof.
  intros HL Hfuel r. unfold r. clear r.
  destruct (bearer_cases authHeader) as [Hb|Hb].
  - destruct Hb as [token [-> Hlen]].
    assert (Hb : bearer ("Bearer " ++ token)) by (exists token; auto).
    rewrite api_profile_result by assumption.
    cbn [fst snd afterWith response invoked newContext written app].
    split; [reflexivity|]. split; [|split].
    + split; [intros _; exact Hb | intros _; eauto].
    + split; [intros _; exact Hb | intros _].
      unfold positions. apply in_map_iff.
      exists (List.length stages + 1)%nat. split; [lia|].
      apply in_seq. lia.
    + intros Hno. now destruct Hno.
  - destruct (JWTAuthMiddleware_reject authHeader Hb) as [msg ->].
    rewrite (rejected_in_place (fun _ => True) stages _ [apiProfileHandler]
               401 msg fuel); try exact I; try (simpl; lia).
    + cbn [fst snd afterWith response invoked newContext written app].
      split; [reflexivity|]. split; [|split].
      * split; [intros [body H]; discriminate | intros H; now destruct Hb].
      * split; [|intros H; now destruct Hb].
        unfold positions. intros H. apply in_map_iff in H.
        destruct H as [k [Hk Hin]]. apply in_seq in Hin. lia.
      * intros _. now exists msg.
    + intros next c _. unfold AbortWithStatusJSON. cbn [run].
      now rewrite written_WriteResponse.
Qed.

Lemma bearer_gate_witness :
  (List.length globalStages + 2 <= 64)%nat /\
  (List.length globalStages + 3 <= 6)%nat /\
  let r := Execute 6 (wrapped globalStages
                      ++ [JWTAuthMiddleware "Basic dXNlcjpwYXNzd29yZA=="; apiProfileHandler]) in
  fst r = Finished /\
  ((exists body, response (snd r) = Some (200, body))
   <-> bearer "Basic dXNlcjpwYXNzd29yZA==") /\
  (In (Z.of_nat (List.length globalStages) + 1) (invoked (snd r))
   <-> bearer "Basic dXNlcjpwYXNzd29yZA==") /\
  (~ bearer "Basic dXNlcjpwYXNzd29yZA=="
   -> exists msg, response (snd r) = Some (401, msg)).
Proof.
  split; [simpl; lia|]. split; [simpl; lia|].
  apply (bearer_gate globalStages "Basic dXNlcjpwYXNzd29yZA==" 6); simpl; lia.
Defined.

(** A token issued by [generateToken] (the one [/login] returns) is always
    accepted: sent back as [Bearer <token>], it passes [JWTAuthMiddleware] and
    the handler of [/api/profile] answers 200 for user 1001, whatever the
    random source delivered. *)
Theorem login_token_accepted (stages : list (string * string))
                             (random : list Byte.byte) (fuel : nat) :
  (List.length stages + 2 <= 64)%nat ->
  (List.length stages + 3 <= fuel)%nat ->
  let r := Execute fuel
             (wrapped stages
              ++ [JWTAuthMiddleware ("Bearer " ++ generateToken random);
                  apiProfileHandler]) in
  fst r = Finished /\
  response (snd r)
  = Some (200, profileBody (Some (VInt 1001)) (Some (VString "test_user")) None) /\
  Get "user_id" (snd r) = Some (VInt 1001) /\
  invoked (snd r) = positions 0 (List.length stages + 2).
Proof.
  intros HL Hfuel r. unfold r. clear r.
  rewrite api_profile_result; try assumption.
  - repeat split.
  - rewrite generateToken_length. lia.
Qed.

Lemma login_token_accepted_witness :
  (List.length globalStages + 2 <= 64)%nat /\
  (List.length globalStages + 3 <= 6)%nat /\
  let r := Execute 6
             (wrapped globalStages
              ++ [JWTAuthMiddleware ("Bearer " ++ generateToken [Byte.x2a; Byte.xff]);
                  apiProfileHandler]) in
  fst r = Finished /\
  response (snd r)
  = Some (200, profileBody (Some (VInt 1001)) (Some (VString "test_user")) None) /\
  Get "user_id" (snd r) = Some (VInt 1001) /\
  invoked (snd r) = positions 0 (List.length globalStages + 2).
Proof.
  split; [simpl; lia|]. split; [simpl; lia|].
  apply (login_token_accepted globalStages [Byte.x2a; Byte.xff] 6); simpl; lia.
Defined.

Lemma Header_written key value headers :
  value <> EmptyString ->
  forall v, In (key, v) (Header key value headers) <-> v = value.
Proof.
  intros Hvalue v. unfold Header.
  destruct (String.eqb_spec value ""); [contradiction|].
  rewrite in_app_iff, filter_In. cbn [fst In].
  rewrite String.eqb_refl. cbn [negb].
  split.
  - intros [[_ H]|[H|[]]]; [discriminate | now inversion H].
  - intros ->. right. now left.
Qed.

Lemma positions_from_0 k : positions 0 (S k) = 0 :: positions 1 k.
Proof. reflexivity. Qed.

Lemma request_id_result stages requestID token fuel :
  (20 <= String.length token)%nat ->
  (List.length stages + 3 <= 64)%nat ->
  (List.length stages + 5 <= fuel)%nat ->
  Execute fuel
    (SetKey "request_id" (VString requestID) (CallNext Return)
     :: wrapped stages ++ [JWTAuthMiddleware ("Bearer " ++ token); apiProfileHandler])
  = (Finished,
     mkContext (2 * Z.of_nat (List.length stages) + 4)
       (jwtKeys (requestKeys requestID (fun _ => None)))
       (Some (200, profileBody (Some (VInt 1001)) (Some (VString "test_user"))
                               (Some (VString requestID))))
       (map fst stages ++ rev (map snd stages))
       (positions 0 (List.length stages + 3))).
Proof.
  intros Hlen HL Hfuel. unfold Execute.
  set (first := SetKey "request_id" (VString requestID) (CallNext Return)).
  set (tail := [JWTAuthMiddleware ("Bearer " ++ token); apiProfileHandler]).
  change (first :: wrapped stages ++ tail) with (placed tail [first] stages).
  pose proof (placed_length tail [first] stages) as Hlength.
  cbn [List.length] in Hlength.
  set (n := Z.of_nat (List.length stages)).
  assert (Hn : 0 <= n <= 61) by (unfold n; lia).
  assert (HLz : Z.of_nat (List.length (placed tail [first] stages)) = n + 3)
    by (rewrite Hlength; unfold tail, n; cbn [List.length]; lia).
  unfold invokeAt at 1.
  change (handlerAt (placed tail [first] stages) (index newContext)) with (Some first).
  unfold first. cbn [run]. fold first.
  destruct fuel as [|f]; [lia|].
  rewrite Next_invoke;
    [ | lia | cbn [index Set_ noteCall newContext]; lia
      | cbn [index Set_ noteCall newContext]; lia ].
  unfold tail.
  rewrite (api_profile_from [first] stages token (Some (VString requestID)));
    [ | assumption | simpl; lia | reflexivity | reflexivity | lia ].
  fold tail.
  destruct f as [|f]; [lia|].
  rewrite loop_done; [ | lia | unfold afterWith; cbn [index List.length]; lia ].
  f_equal. unfold afterWith, setIndex. cbn [index Keys response output invoked].
  f_equal.
  - cbn [List.length]. unfold n. lia.
  - replace (List.length stages + 3)%nat with (S (List.length stages + 2)) by lia.
    rewrite positions_from_0. ctx_norm. unfold newContext.
    cbn [invoked index app List.length]. f_equal. unfold positions.
    replace (List.length stages + 2)%nat with (S (S (List.length stages))) by lia.
    rewrite !seq_S, !map_app. cbn [map app]. rewrite <- !app_assoc.
    cbn [app]. repeat f_equal; lia.
Qed.

(** [RequestIDMiddleware] in front of the authenticated [/api/profile]
    route (logging stages may stand in between): the request id it chooses is
    the incoming [X-Request-ID] header when there is one and a fresh
    32-character id otherwise; the same id is the only [X-Request-ID] response
    header and the [request_id] the handler reports in its 200 body. *)
Theorem request_id_propagates (stages : list (string * string))
                              (incoming : string) (random : list Byte.byte)
                              (token : string) (fuel : nat) :
  (20 <= String.length token)%nat ->
  (List.length stages + 3 <= 64)%nat ->
  (List.length stages + 5 <= fuel)%nat ->
  let stage := RequestIDMiddleware incoming random in
  let r := Execute fuel
             (fst stage
              :: wrapped stages
                 ++ [JWTAuthMiddleware ("Bearer " ++ token); apiProfileHandler]) in
  exists requestID,
    (incoming <> EmptyString -> requestID = incoming) /\
    (incoming = EmptyString -> String.length requestID = 32%nat) /\
    (forall headers value,
       In ("X-Request-ID"%string, value) (snd stage headers) <-> value = requestID) /\
    fst r = Finished /\
    response (snd r)
    = Some (200, profileBody (Some (VInt 1001)) (Some (VString "test_user"))
                             (Some (VString requestID))) /\
    Get "request_id" (snd r) = Some (VString requestID).
Proof.
  intros Hlen HL Hfuel stage r. unfold r, stage, RequestIDMiddleware. clear r stage.
  cbv zeta. cbn [fst snd].
  set (requestID := if String.eqb incoming "" then generateRequestID random
                    else incoming).
  assert (Hid : requestID <> EmptyString).
  { unfold requestID. destruct (String.eqb_spec incoming ""); [|assumption].
    intros H. pose proof (generateRequestID_length random) as Hl.
    rewrite H in Hl. discriminate. }
  exists requestID.
  rewrite request_id_result by assumption.
  cbn [fst snd response].
  split; [|split; [|split; [|split; [|split]]]].
  - unfold requestID. intros H. now destruct (String.eqb_spec incoming "").
  - unfold requestID. intros ->. cbn. apply generateRequestID_length.
  - intros headers value. now apply Header_written.
  - reflexivity.
  - reflexivity.
  - reflexivity.
Qed.

Lemma request_id_propagates_witness :
  (20 <= String.length "0123456789abcdefghij")%nat /\
  (List.length globalStages + 3 <= 64)%nat /\
  (List.length globalStages + 5 <= 8)%nat /\
  let stage := RequestIDMiddleware "trace-7" [] in
  let r := Execute 8
             (fst stage
              :: wrapped globalStages
                 ++ [JWTAuthMiddleware ("Bearer " ++ "0123456789abcdefghij");
                     apiProfileHandler]) in
  exists requestID,
    ("trace-7"%string <> EmptyString -> requestID = "trace-7"%string) /\
    ("trace-7"%string = EmptyString -> String.length requestID = 32%nat) /\
    (forall headers value,
       In ("X-Request-ID"%string, value) (snd stage headers) <-> value = requestID) /\
    fst r = Finished /\
    response (snd r)
    = Some (200, profileBody (Some (VInt 1001)) (Some (VString "test_user"))
                             (Some (VString requestID))) /\
    Get "request_id" (snd r) = Some (VString requestID).
Proof.
  split; [simpl; lia|]. split; [simpl; lia|]. split; [simpl; lia|].
  apply (request_id_propagates globalStages "trace-7" [] "0123456789abcdefghij" 8);
    simpl; lia.
Defined.

(** ** Cross-origin requests *)

Lemma originAllowed_In origin : originAllowed origin = true <-> In origin allowedOrigins.
Proof.
  unfold originAllowed. rewrite existsb_exists. split.
  - intros [o [Hin Ho]]. apply orb_true_iff in Ho. destruct Ho as [Ho|Ho].
    + apply String.eqb_eq in Ho. now subst.
    + apply String.eqb_eq in Ho. subst o. simpl in Hin.
      destruct Hin as [H|[H|[H|[]]]]; discriminate.
  - intros Hin. exists origin. split; [assumption|].
    now rewrite String.eqb_refl.
Qed.

Lemma Header_other key key' value headers v :
  key <> key' ->
  In (key, v) (Header key' value headers) <-> In (key, v) headers.
Proof.
  intros Hkey. unfold Header.
  assert (Hf : In (key, v) (filter (fun kv => negb (String.eqb (fst kv) key')) headers)
               <-> In (key, v) headers).
  { rewrite filter_In. cbn [fst].
    destruct (String.eqb_spec key key'); [contradiction|]. cbn [negb]. tauto. }
  destruct (String.eqb value "").
  - exact Hf.
  - rewrite in_app_iff, Hf. cbn [In]. split; [|tauto].
    intros [H|[H|[]]]; [assumption|]. inversion H. congruence.
Qed.

(** A preflight request (method [OPTIONS]) stops at [CORSMiddleware],
    wherever the stage stands behind logging stages and whatever follows it in
    a chain of at most 64 handlers: it is answered 204 with an empty body and
    no later handler (authentication, rate limiting, the route) is called,
    whether or not the origin is allowed; the response names the request's
    origin in [Access-Control-Allow-Origin] exactly when the origin is one of
    the three listed. *)
Theorem cors_preflight (stages : list (string * string)) (origin : string)
                       (rest : list Handler) (fuel : nat) :
  (List.length stages + 1 + List.length rest <= 64)%nat ->
  (List.length stages + 1 <= fuel)%nat ->
  let stage := CORSMiddleware origin "OPTIONS" in
  let r := Execute fuel (wrapped stages ++ fst stage :: rest) in
  fst r = Finished /\
  response (snd r) = Some (204, EmptyString) /\
  invoked (snd r) = positions 0 (S (List.length stages)) /\
  (forall value,
     In ("Access-Control-Allow-Origin"%string, value) (snd stage [])
     <-> In origin allowedOrigins /\ value = origin).
Proof.
  intros HL Hfuel stage r. unfold r, stage, CORSMiddleware. clear r stage.
  cbn [fst snd String.eqb Ascii.eqb Bool.eqb].
  rewrite (rejected_in_place (fun _ => True) stages _ rest 204 EmptyString fuel);
    try assumption; try exact I.
  - cbn [fst snd afterWith response invoked newContext written app].
    split; [reflexivity|]. split; [reflexivity|]. split; [reflexivity|].
    intros value. destruct (originAllowed origin) eqn:Eo.
    + apply originAllowed_In in Eo.
      rewrite !Header_other by discriminate.
      rewrite Header_written.
      * tauto.
      * intros ->. simpl in Eo. destruct Eo as [H|[H|[H|[]]]]; discriminate.
    + split; [intros []|]. intros [Hin _].
      apply originAllowed_In in Hin. congruence.
  - intros next c _. unfold AbortWithStatus. cbn [run].
    rewrite written_WriteResponse. reflexivity.
Qed.

Lemma cors_preflight_witness :
  (List.length globalStages + 1 + List.length [limitedHandler] <= 64)%nat /\
  (List.length globalStages + 1 <= 4)%nat /\
  let stage := CORSMiddleware "https://example.com" "OPTIONS" in
  let r := Execute 4 (wrapped globalStages ++ fst stage :: [limitedHandler]) in
  fst r = Finished /\
  response (snd r) = Some (204, EmptyString) /\
  invoked (snd r) = positions 0 (S (List.length globalStages)) /\
  (forall value,
     In ("Access-Control-Allow-Origin"%string, value) (snd stage [])
     <-> In "https://example.com"%string allowedOrigins /\ value = "https://example.com"%string).
Proof.
  split; [simpl; lia|]. split; [simpl; lia|].
  apply (cors_preflight globalStages "https://example.com" [limitedHandler] 4);
    simpl; lia.
Defined.
